(** * Blue-collar-buddy: scraping, normalization and query enhancement

    Shallow embedding of [src/backend/server.js] (ProductScraper,
    LLMSearchEnhancer, SUPPLIERS) and of the Grainger scraper
    ([src/unnamed/part_000], GraingerPriceScraper).

    Strings are Stdlib strings over ASCII; JS regular expressions are
    embedded by a small backtracking matcher with JS semantics (leftmost
    match, greedy quantifiers, capture groups).  Confidences and prices,
    which the JS code keeps as doubles, are kept exactly: confidences in
    tenths, prices in cents (every price the regexes accept has at most two
    decimals). *)

From Stdlib Require Import Ascii String List Arith Lia ZArith QArith Bool.
From stdpp Require Import base gmap sets strings.
Import ListNotations.

Open Scope bool_scope.

(* ------------------------------------------------------------------ *)
(** ** String helpers (JS String.prototype methods on ASCII) *)

Module JS.

Definition is_ws (a : ascii) : bool :=
  let n := nat_of_ascii a in
  (n =? 32) || (9 <=? n) && (n <=? 13).

Definition is_digit (a : ascii) : bool :=
  let n := nat_of_ascii a in (48 <=? n) && (n <=? 57).

Definition is_lower (a : ascii) : bool :=
  let n := nat_of_ascii a in (97 <=? n) && (n <=? 122).

Definition is_upper (a : ascii) : bool :=
  let n := nat_of_ascii a in (65 <=? n) && (n <=? 90).

(** word characters of [\b]: [A-Za-z0-9_] *)
Definition is_word (a : ascii) : bool :=
  is_lower a || is_upper a || is_digit a || (nat_of_ascii a =? 95).

Definition lower_char (a : ascii) : ascii :=
  if is_upper a then ascii_of_nat (nat_of_ascii a + 32) else a.

(** [s.toLowerCase()] *)
Fixpoint toLowerCase (s : string) : string :=
  match s with
  | EmptyString => EmptyString
  | String a s' => String (lower_char a) (toLowerCase s')
  end.

Fixpoint drop_ws (l : list ascii) : list ascii :=
  match l with
  | a :: l' => if is_ws a then drop_ws l' else l
  | [] => []
  end.

(** [s.trim()] *)
Definition trim (s : string) : string :=
  string_of_list_ascii
    (rev (drop_ws (rev (drop_ws (list_ascii_of_string s))))).

(** [s.replace(/\s+/g, '')] *)
Definition strip_ws (s : string) : string :=
  string_of_list_ascii (List.filter (fun a => negb (is_ws a)) (list_ascii_of_string s)).

(** [s.includes(sub)] *)
Fixpoint includes (s sub : string) : bool :=
  String.prefix sub s ||
  match s with
  | EmptyString => false
  | String _ s' => includes s' sub
  end.

(** number of pieces of [s.split(' ')] *)
Fixpoint split_space_count (s : string) : nat :=
  match s with
  | EmptyString => 1
  | String a s' =>
      (if Ascii.eqb a " "%char then 1 else 0) + split_space_count s'
  end.

(** JS truthiness of a string *)
Definition truthy (s : string) : bool :=
  match s with EmptyString => false | _ => true end.

(** A number as [parseInt] returns it: an integer or [NaN].  JS rounds
    integers beyond 2^53; here they are only compared with array indices
    and divided by 3, and the rounding changes none of those comparisons. *)
Inductive num := NaN | Int (z : Z).

(** [index >= n] for an array index ([false] for [NaN]) *)
Definition index_ge (index : nat) (n : num) : bool :=
  match n with NaN => false | Int z => Z.leb z (Z.of_nat index) end.

(** [Math.ceil(n / d)] for a positive integer [d] *)
Definition ceil_div (n : num) (d : Z) : num :=
  match n with NaN => NaN | Int z => Int ((z + d - 1) / d) end.

(** [l.slice(0, n)]: [NaN] counts as 0 and a negative end counts from the
    end of the array *)
Definition slice0 {A} (l : list A) (n : num) : list A :=
  match n with
  | NaN => []
  | Int z => if Z.ltb z 0 then firstn (Z.to_nat (Z.of_nat (length l) + z)) l
             else firstn (Z.to_nat z) l
  end.

(** [cs.each((index, el) => { if (index >= n) return false; ... })] of
    cheerio: returning [false] ends the iteration *)
Fixpoint each_until {A} (n : num) (index : nat) (cs : list A) : list A :=
  match cs with
  | [] => []
  | c :: cs' => if index_ge index n then [] else c :: each_until n (S index) cs'
  end.

(** [cs.forEach((c, index) => { if (index >= n) return; ... })]: [return]
    only skips the element *)
Fixpoint forEach_below {A} (n : num) (index : nat) (cs : list A) : list A :=
  match cs with
  | [] => []
  | c :: cs' => if index_ge index n then forEach_below n (S index) cs'
                else c :: forEach_below n (S index) cs'
  end.

End JS.

(* ------------------------------------------------------------------ *)
(** ** JS regular expressions: backtracking matcher *)

Module Regex.
Import JS.

Inductive re : Type :=
| RChar (p : ascii -> bool)          (** one character of a class *)
| RSeq (r1 r2 : re)
| RAlt (r1 r2 : re)                  (** [r1|r2], left first *)
| RStar (r : re)                     (** greedy [r*] *)
| REps
| RBound                             (** [\b] *)
| RGroup (g : nat) (r : re).         (** capture group [g] *)

(** captures: group -> (start, end), most recent first *)
Definition caps := list (nat * (nat * nat)).

Definition boundary (s : list ascii) (i : nat) : bool :=
  let before := match i with
                | O => false
                | S i' => match nth_error s i' with
                          | Some a => is_word a | None => false end
                end in
  let after := match nth_error s i with
               | Some a => is_word a | None => false end in
  xorb before after.

(** the continuation type of the matcher *)
Definition kont := nat -> caps -> option (nat * caps).

(** the greedy loop of [r*]: [step] matches one iteration of [r]; an
    iteration that consumes nothing fails, as in the JS RepeatMatcher;
    [n] bounds the iterations. *)
Fixpoint star_loop (step : nat -> caps -> kont -> option (nat * caps))
         (k : kont) (n i : nat) (c : caps) : option (nat * caps) :=
  match n with
  | O => k i c
  | S n' =>
      match step i c (fun j c' => if Nat.eqb j i then None
                                  else star_loop step k n' j c') with
      | Some x => Some x
      | None => k i c
      end
  end.

(** [m fuel r s i c k]: match [r] at position [i] of [s], then run the
    continuation [k]; backtracking is the [None] result of a
    continuation.  [fuel] bounds the star iterations. *)
Fixpoint m (fuel : nat) (r : re) (s : list ascii) (i : nat) (c : caps)
         (k : kont) {struct r} : option (nat * caps) :=
  match r with
  | RChar p =>
      match nth_error s i with
      | Some a => if p a then k (S i) c else None
      | None => None
      end
  | RSeq r1 r2 => m fuel r1 s i c (fun j c' => m fuel r2 s j c' k)
  | RAlt r1 r2 =>
      match m fuel r1 s i c k with
      | Some x => Some x
      | None => m fuel r2 s i c k
      end
  | RStar r1 => star_loop (fun i c k' => m fuel r1 s i c k') k fuel i c
  | REps => k i c
  | RBound => if boundary s i then k i c else None
  | RGroup g r1 => m fuel r1 s i c (fun j c' => k j ((g, (i, j)) :: c'))
  end.

(** a match: start, end, captures *)
Record mresult := MR { m_start : nat; m_end : nat; m_caps : caps }.

Fixpoint search_from (r : re) (s : list ascii) (i : nat) (n : nat)
  : option mresult :=
  match m (S (length s)) r s i [] (fun j c => Some (j, c)) with
  | Some (j, c) => Some (MR i j c)
  | None =>
      match n with
      | O => None
      | S n' => search_from r s (S i) n'
      end
  end.

(** [s.match(r)] without the [g] flag: leftmost match *)
Definition exec (r : re) (str : string) : option mresult :=
  let s := list_ascii_of_string str in search_from r s 0 (length s).

Definition substr (s : list ascii) (a b : nat) : string :=
  string_of_list_ascii (firstn (b - a) (skipn a s)).

(** [match[g]] *)
Definition group (str : string) (mr : mresult) (g : nat) : option string :=
  match find (fun p => Nat.eqb (fst p) g) (m_caps mr) with
  | Some (_, (a, b)) => Some (substr (list_ascii_of_string str) a b)
  | None => None
  end.

(** [r] sets group [g] on every match *)
Fixpoint captures (g : nat) (r : re) : bool :=
  match r with
  | RGroup g' r1 => Nat.eqb g' g || captures g r1
  | RSeq r1 r2 => captures g r1 || captures g r2
  | RAlt r1 r2 => captures g r1 && captures g r2
  | _ => false
  end.

(** regex building blocks *)
Definition lit (a : ascii) : re := RChar (fun b => Ascii.eqb a b).
(** a literal under the [i] flag *)
Definition lit_i (a : ascii) : re :=
  RChar (fun b => Ascii.eqb (lower_char a) (lower_char b)).
Fixpoint lits (f : ascii -> re) (s : string) : re :=
  match s with
  | EmptyString => REps
  | String a EmptyString => f a
  | String a s' => RSeq (f a) (lits f s')
  end.
Definition plus (r : re) : re := RSeq r (RStar r).
Definition opt (r : re) : re := RAlt r REps.
Fixpoint rep (n : nat) (r : re) : re :=
  match n with O => REps | 1 => r | S n' => RSeq r (rep n' r) end.
(** greedy [r{0,n}] *)
Fixpoint upto (n : nat) (r : re) : re :=
  match n with O => REps | S n' => opt (RSeq r (upto n' r)) end.
Definition digit : re := RChar is_digit.
Definition ws : re := RChar is_ws.
Definition lower_az : re := RChar is_lower.

End Regex.

(* ------------------------------------------------------------------ *)
(** ** Price parsing *)

Module Price.
Import JS Regex.

(** [\d+(?:,\d{3})*(?:\.\d{2})?] *)
Definition num : re :=
  RSeq (plus digit)
       (RSeq (RStar (RSeq (lit ","%char) (rep 3 digit)))
             (opt (RSeq (lit "."%char) (rep 2 digit)))).

(** Grainger patterns, in the order of the source:
    [/\$(num)/], [/(num)\s*(?:USD|dollars?)/i], [/Price:\s*\$?(num)/i] *)
Definition p_currency : re := RSeq (lit "$"%char) (RGroup 1 num).
Definition p_usd : re :=
  RSeq (RGroup 1 num)
       (RSeq (RStar ws)
             (RAlt (lits lit_i "USD")
                   (RSeq (lits lit_i "dollar") (opt (lit_i "s"%char))))).
Definition p_labeled : re :=
  RSeq (lits lit_i "Price:")
       (RSeq (RStar ws) (RSeq (opt (lit "$"%char)) (RGroup 1 num))).
Definition patterns : list re := [p_currency; p_usd; p_labeled].

(** ProductScraper pattern [/\$?(num)/] *)
Definition p_generic : re := RSeq (opt (lit "$"%char)) (RGroup 1 num).

Definition digit_val (a : ascii) : Z := Z.of_nat (nat_of_ascii a - 48).

Fixpoint digits_prefix (l : list ascii) (acc : Z) : Z * list ascii :=
  match l with
  | a :: l' => if is_digit a then digits_prefix l' (10 * acc + digit_val a)
               else (acc, l)
  | [] => (acc, [])
  end.

(** [parseFloat(t.replace(/,/g, ''))] in cents, for the texts [num]
    captures (digits, an optional point and two decimals). *)
Definition parseFloat_cents (t : string) : Z :=
  let l := List.filter (fun a => negb (Ascii.eqb a ","%char)) (list_ascii_of_string t) in
  let '(ip, rest) := digits_prefix l 0 in
  match rest with
  | "."%char :: d1 :: d2 :: _ =>
      if is_digit d1 && is_digit d2
      then 100 * ip + 10 * digit_val d1 + digit_val d2
      else if is_digit d1 then 100 * ip + 10 * digit_val d1 else 100 * ip
  | "."%char :: d1 :: _ =>
      if is_digit d1 then 100 * ip + 10 * digit_val d1 else 100 * ip
  | _ => 100 * ip
  end%Z.

(** [match ? parseFloat(match[1].replace(/,/g, '')) : ...]; group 1 is
    not optional in any pattern, so it is always set on a match. *)
Definition price_of_match (r : re) (s : string) : option (option Z) :=
  match exec r s with
  | Some mr =>
      match group s mr 1 with
      | Some t => Some (Some (parseFloat_cents t))
      | None => Some None
      end
  | None => None
  end.

Fixpoint first_match (ps : list re) (s : string) : option Z :=
  match ps with
  | [] => None
  | p :: ps' =>
      match price_of_match p s with
      | Some v => v
      | None => first_match ps' s
      end
  end.

(** GraingerPriceScraper.parsePrice *)
Definition parsePrice (priceText : string) : option Z :=
  if truthy priceText then first_match patterns priceText else None.

(** ProductScraper.parsePrice *)
Definition parsePrice_generic (priceText : string) : option Z :=
  if truthy priceText then
    match price_of_match p_generic priceText with
    | Some v => v
    | None => None
    end
  else None.

End Price.

(* ------------------------------------------------------------------ *)
(** ** LLMSearchEnhancer *)

Module Enhancer.
Import JS Regex.
Open Scope string_scope.

Inductive method := rule_based | llm | llm_fallback | passthrough
                  | error_fallback | suggestion | original.

(** result of [enhanceSearchQuery]; confidence in tenths *)
Record enhancement := {
  originalQuery : string;
  enhancedQuery : string;
  suggestions : list string;
  confidence : nat;
  emethod : method
}.

(** [this.partCategories] (only the keys and the first two parts are read) *)
Definition partCategories : list (string * list string) :=
  [("bearings", ["ball bearing"; "roller bearing"; "thrust bearing"; "pillow block"; "flange bearing"]);
   ("seals", ["oil seal"; "hydraulic seal"; "o-ring"; "gasket"; "mechanical seal"]);
   ("fasteners", ["bolt"; "screw"; "nut"; "washer"; "stud"]);
   ("electrical", ["motor"; "switch"; "relay"; "contactor"; "fuse"]);
   ("hydraulic", ["cylinder"; "pump"; "valve"; "hose"; "fitting"]);
   ("pneumatic", ["air cylinder"; "air valve"; "air filter"; "regulator"; "lubricator"])].

(** [this.equipmentMappings], in insertion order *)
Definition equipmentMappings : list (string * list string) :=
  [("conveyor", ["bearing"; "belt"; "roller"; "motor"; "chain"]);
   ("pump", ["seal"; "impeller"; "bearing"; "coupling"; "gasket"]);
   ("compressor", ["belt"; "filter"; "valve"; "pressure switch"; "motor"]);
   ("forklift", ["hydraulic cylinder"; "filter"; "chain"; "tire"; "battery"]);
   ("crane", ["wire rope"; "hook"; "bearing"; "brake"; "motor"])].

(** [categoryMappings] of [ruleBasedEnhancement], in insertion order *)
Definition categoryMappings : list (string * list string) :=
  [("bearing", ["6203 bearing"; "6202 bearing"; "pillow block bearing"]);
   ("seal", ["hydraulic seal"; "oil seal 25x40x7"]);
   ("bolt", ["M8 bolt"; "hex bolt"; "socket head cap screw"]);
   ("gasket", ["O-ring"; "hydraulic gasket"; "flange gasket"]);
   ("filter", ["hydraulic filter"; "air filter"; "oil filter"]);
   ("motor", ["1HP motor"; "stepper motor"; "12V DC motor"]);
   ("valve", ["ball valve"; "check valve"; "solenoid valve"]);
   ("pump", ["hydraulic pump"; "water pump"; "gear pump"])].

(** [/\b([a-z]*[-\s]*\d{3,8}[a-z]*[-\s]*[a-z\d]* )\b/] (without the space) *)
Definition dash_ws : re := RChar (fun a => Ascii.eqb a "-"%char || is_ws a).
Definition p_partNumber : re :=
  RSeq RBound
   (RSeq
     (RGroup 1
       (RSeq (RStar lower_az)
        (RSeq (RStar dash_ws)
         (RSeq (rep 3 digit)
          (RSeq (upto 5 digit)
           (RSeq (RStar lower_az)
            (RSeq (RStar dash_ws)
                  (RStar (RChar (fun a => is_lower a || is_digit a))))))))))
     RBound).

(** the double quote character *)
Definition dq : ascii := ascii_of_nat 34.

(** [/(\d+)\s*(mm|cm|inch|DQ|SQ)/], DQ and SQ the double and single quote *)
Definition p_size : re :=
  RSeq (RGroup 1 (plus digit))
       (RSeq (RStar ws)
             (RGroup 2 (RAlt (lits lit "mm")
                       (RAlt (lits lit "cm")
                       (RAlt (lits lit "inch")
                       (RAlt (lit dq) (lit "'"%char))))))).

(** the local variables [enhancedQuery], [confidence], [suggestions] *)
Record rule_state := RS { rs_query : string; rs_conf : nat; rs_sugg : list string }.

Definition quote : string := String dq EmptyString.

(** Pattern 1: part numbers *)
Definition pattern1 (nq : string) (st : rule_state) : rule_state :=
  match exec p_partNumber nq with
  | Some mr =>
      let pn := strip_ws (match group nq mr 1 with Some t => t | None => EmptyString end) in
      RS (pn ++ " bearing") 9
         (rs_sugg st ++ ["Try searching for: " ++ quote ++ pn ++ " bearing" ++ quote])
  | None => st
  end.

(** Pattern 2: generic categories (first entry that applies, then [break]) *)
Fixpoint pattern2_loop (nq : string) (ms : list (string * list string))
         (st : rule_state) : rule_state :=
  match ms with
  | [] => st
  | (generic, specific) :: ms' =>
      if includes nq generic && Nat.leb (split_space_count nq) 2
      then RS (hd EmptyString specific) 8 specific
      else pattern2_loop nq ms' st
  end.
Definition pattern2 (nq : string) := pattern2_loop nq categoryMappings.

(** Pattern 3: equipment (first entry that applies, then [break]) *)
Fixpoint pattern3_loop (nq : string) (ms : list (string * list string))
         (st : rule_state) : rule_state :=
  match ms with
  | [] => st
  | (equipment, parts) :: ms' =>
      if includes nq equipment
      then RS (equipment ++ " " ++ hd EmptyString parts) 7
              (map (fun part => equipment ++ " " ++ part) parts)
      else pattern3_loop nq ms' st
  end.
Definition pattern3 (nq : string) := pattern3_loop nq equipmentMappings.

(** Pattern 4: size / dimension *)
Definition pattern4 (nq : string) (st : rule_state) : rule_state :=
  match exec p_size nq with
  | Some mr =>
      if includes nq "bearing" then
        let size := match group nq mr 1 with Some t => t | None => EmptyString end in
        let unit := match group nq mr 2 with Some t => t | None => EmptyString end in
        RS (size ++ unit ++ " bearing") 8 (rs_sugg st)
      else st
  | None => st
  end.

(** [ruleBasedEnhancement(query)]: the four checks run one after the other
    on the same local variables *)
Definition ruleBasedEnhancement (query : string) : enhancement :=
  let nq := trim (toLowerCase query) in
  let st := pattern4 nq (pattern3 nq (pattern2 nq (pattern1 nq (RS nq 5 [])))) in
  {| originalQuery := query; enhancedQuery := rs_query st;
     suggestions := rs_sugg st; confidence := rs_conf st;
     emethod := rule_based |}.

(** [generateSuggestions(query)] *)
Definition generateSuggestions (query : string) : list string :=
  let nq := toLowerCase query in
  let s := flat_map (fun '(category, parts) =>
             if includes nq (substring 0 (String.length category - 1) category)
             then firstn 2 parts else []) partCategories in
  let s := match s with
           | [] => ["6203 bearing"; "hydraulic seal"; "M8 bolt";
                    "O-ring 25x40x7"; "1HP motor"]
           | _ => s
           end in
  firstn 3 s.

(** The external LLM collaborator: given the query, the enhancement
    [llmBasedEnhancement] produces ([llm] or [llm_fallback] method), or
    [None] when the call or the response body fails (the thrown error). *)
Definition llm_oracle := string -> option enhancement.

(** [enhanceSearchQuery(originalQuery)]; [hasKey] is [!!this.apiKey].
    The second component lists the queries sent to the LLM. *)
Definition enhanceSearchQuery (hasKey : bool) (ask : llm_oracle)
           (q : string) : enhancement * list string :=
  let r := ruleBasedEnhancement q in
  if Nat.ltb 7 (confidence r) then (r, [])
  else if hasKey then
    match ask q with
    | Some e => (e, [q])
    | None => ({| originalQuery := q; enhancedQuery := q;
                  suggestions := generateSuggestions q; confidence := 3;
                  emethod := error_fallback |}, [q])
    end
  else ({| originalQuery := q; enhancedQuery := q;
           suggestions := generateSuggestions q; confidence := 3;
           emethod := passthrough |}, []).

End Enhancer.

(* ------------------------------------------------------------------ *)
(** ** Pages, extraction, normalization, deduplication *)

Module Scraper.
Import JS.
Open Scope string_scope.

(** A DOM element matched as a product container.  [first_text sel] is
    the trimmed text of the first descendant matching [sel] ([""] if none);
    cheerio's [find(sel).first().text().trim()] and the in-page
    [querySelector(sel).textContent.trim()] both read it.  [link_attr] is
    the [href] attribute of the first [a[href*="/product/"]] and
    [link_abs] its resolved [.href] property ([""] if there is no link). *)
Record container := {
  first_text : string -> string;
  link_attr : string;
  link_abs : string
}.

(** A fetched page: the elements matched by a selector, in document order. *)
Record page := { query_all : string -> list container }.

(** [getTextBySelectors(selectors)] *)
Fixpoint getTextBySelectors (c : container) (sels : list string) : string :=
  match sels with
  | [] => EmptyString
  | sel :: sels' =>
      let t := first_text c sel in
      if truthy t then t else getTextBySelectors c sels'
  end.

(** the first container selector with a match; [[]] if none matches *)
Fixpoint first_containers (p : page) (sels : list string) : list container :=
  match sels with
  | [] => []
  | sel :: sels' =>
      match query_all p sel with
      | [] => first_containers p sels'
      | cs => cs
      end
  end.

(** the scraped record (the objects pushed to [results] / [products]) *)
Record raw := {
  r_partNumber : string;
  r_productName : string;
  r_priceText : string;
  r_availability : string;
  r_productUrl : string          (** [""] where the object has no such key *)
}.

(** output objects of the normalizers; [None] for a key the object lacks *)
Record listing := {
  partNumber : string;
  name : string;
  price : option Z;
  priceText : string;
  availability : string;
  inStock : bool;
  supplier : string;
  productUrl : string;
  lastUpdated : string;
  confidence : option nat;       (** tenths *)
  source : option string
}.

(** Objects returned by a source: a normalized listing, or a scraped
    record returned as it is. *)
Inductive item := Listing (l : listing) | Raw (r : raw).

(** *** GraingerPriceScraper

    Selectors are written with single quotes around attribute values,
    which CSS reads the same as the double quotes of the source. *)
Module Grainger.

Definition baseUrl := "https://www.grainger.com".

Definition productContainer :=
  ["[data-automation-id='product-tile']"; "article[data-testid='product-tile']";
   ".ProductTile"; ".search-result-item"; ".product-tile"].
Definition price_sels :=
  ["[data-automation-id='product-price'] .price-value";
   "[data-automation-id='product-price']"; ".price-current"; ".price-value";
   ".product-price .price"; ".price-display"; "[data-testid='price']"; ".price"].
Definition partNumber_sels :=
  ["[data-automation-id='product-item-number']"; ".item-number";
   ".product-number"; "[data-testid='item-number']"].
Definition productName_sels :=
  ["[data-automation-id='product-title'] a"; "[data-automation-id='product-title']";
   "h3[data-testid='product-title']"; ".product-title a"; ".product-title"].
Definition availability_sels :=
  ["[data-automation-id='product-availability']"; ".availability-status";
   ".stock-status"; ".availability"].

Definition unavailableKeywords :=
  ["out of stock"; "discontinued"; "unavailable"; "backordered";
   "special order"; "not available"].

(** [parseAvailability(availabilityText)] *)
Definition parseAvailability (availabilityText : string) : bool :=
  if negb (truthy availabilityText) then true
  else let text := toLowerCase availabilityText in
       negb (existsb (fun keyword => includes text keyword) unavailableKeywords).

(** [calculateConfidence(item)], in tenths:
    [if (item.priceText && this.parsePrice(item.priceText))] is false for
    a parsed price of [0] as for [null]. *)
Definition calculateConfidence (it : raw) : nat :=
  let c := 5 in
  let c := if truthy (r_priceText it) &&
              match Price.parsePrice (r_priceText it) with
              | Some p => negb (Z.eqb p 0) | None => false end
           then c + 3 else c in
  let c := if truthy (r_partNumber it) && Nat.ltb 3 (String.length (r_partNumber it))
           then c + 1 else c in
  let c := if truthy (r_productUrl it) then c + 1 else c in
  Nat.min c 10.

(** [normalizeResults(results)]; [now] is [new Date().toISOString()] *)
Definition normalizeResults (now : string) (results : list raw) : list listing :=
  map (fun it =>
    {| partNumber := r_partNumber it;
       name := r_productName it;
       price := Price.parsePrice (r_priceText it);
       priceText := r_priceText it;
       availability := if truthy (r_availability it) then r_availability it
                       else "Contact supplier";
       inStock := parseAvailability (r_availability it);
       supplier := "grainger";
       productUrl := r_productUrl it;
       lastUpdated := now;
       confidence := Some (calculateConfidence it);
       source := None |}) results.

(** the record scraped from one container, [productUrl] as given *)
Definition scrape (c : container) (url : string) : raw :=
  {| r_partNumber := getTextBySelectors c partNumber_sels;
     r_productName := getTextBySelectors c productName_sels;
     r_priceText := getTextBySelectors c price_sels;
     r_availability := getTextBySelectors c availability_sels;
     r_productUrl := url |}.

(** [if (partNumber && productName && priceText)] *)
Definition keep (r : raw) : bool :=
  truthy (r_partNumber r) && truthy (r_productName r) && truthy (r_priceText r).

(** [parseHTMLForPrices(html, maxResults)] (static fetch) *)
Definition parseHTMLForPrices (now : string) (p : page) (maxResults : num)
  : list listing :=
  let cs := each_until maxResults 0 (first_containers p productContainer) in
  let results :=
    List.filter keep
      (map (fun c => scrape c (if truthy (link_attr c)
                               then baseUrl ++ link_attr c else EmptyString)) cs) in
  normalizeResults now results.

(** [extractPricingData(page, maxResults)] (in-page extraction; the
    [containerHTML] debug key is left out) *)
Definition extractPricingData (p : page) (maxResults : num) : list raw :=
  let cs := forEach_below maxResults 0 (first_containers p productContainer) in
  List.filter keep (map (fun c => scrape c (link_abs c)) cs).

(** [waitForProducts(page)]: some container selector appears *)
Definition waitForProducts (p : page) : bool :=
  existsb (fun sel => match query_all p sel with [] => false | _ => true end)
          productContainer.

(** [getPricesWithPuppeteer(query, maxResults)]: [None] for a thrown
    error; [rendered = None] is a launch or navigation failure (after the
    retries).  The extracted records are returned as they are. *)
Definition getPricesWithPuppeteer (rendered : option page) (maxResults : num)
  : option (list item) :=
  match rendered with
  | None => None
  | Some p =>
      if waitForProducts p then Some (map Raw (extractPricingData p maxResults))
      else None
  end.

(** [getLivePrices(query, maxResults)]: [None] for a thrown error;
    [static = None] is a transport failure of the axios request. *)
Definition getLivePrices (now query : string) (static rendered : option page)
           (maxResults : num) : option (list item) :=
  if Nat.ltb (String.length (trim query)) 2 then None
  else match static with
       | None => None
       | Some p =>
           match parseHTMLForPrices now p maxResults with
           | [] => getPricesWithPuppeteer rendered maxResults
           | results => Some (map Listing results)
           end
       end.

(** [getDetailedPricing(partNumber)]: [None] for a thrown error,
    [Some None] for [null], [Some (Some product)] for the object
    [{...product, quantityPricing: [], specifications: {}, images: []}],
    whose three added keys are constants. *)
Definition getDetailedPricing (now partNumber : string) (static rendered : option page)
  : option (option item) :=
  match getLivePrices now partNumber static rendered (Int 1) with
  | None => None
  | Some [] => Some None
  | Some (product :: _) => Some (Some product)
  end.

End Grainger.

(** *** ProductScraper (mcmaster, mscdirect) *)
Module Generic.

(** the keys of [SUPPLIERS] *)
Inductive supplier_id := mcmaster | mscdirect.

Definition supplier_name (s : supplier_id) : string :=
  match s with mcmaster => "mcmaster" | mscdirect => "mscdirect" end.

(** [SUPPLIERS[s].baseUrl] *)
Definition baseUrl (s : supplier_id) : string :=
  match s with
  | mcmaster => "https://www.mcmaster.com"
  | mscdirect => "https://www.mscdirect.com"
  end.

Definition productContainer (s : supplier_id) : list string :=
  match s with
  | mcmaster => [".ProductTableRow"; "tr[data-testid='product-row']"; ".product-row"]
  | mscdirect => [".product-tile"; ".search-result"]
  end.
Definition partNumber_sels (s : supplier_id) : list string :=
  match s with
  | mcmaster => [".PartNumber"; ".part-number"; "td:first-child"]
  | mscdirect => [".product-number"; ".item-number"]
  end.
Definition productName_sels (s : supplier_id) : list string :=
  match s with
  | mcmaster => [".ProductDescription"; ".description"; "td:nth-child(2)"]
  | mscdirect => [".product-title"; ".product-name"]
  end.
Definition price_sels (s : supplier_id) : list string :=
  match s with
  | mcmaster => [".Price"; ".price"; ".cost"]
  | mscdirect => [".price"; ".product-price"]
  end.
(** [config.selectors.availability || []]: no supplier configures one *)
Definition availability_sels (s : supplier_id) : list string := [].

(** [ProductScraper.parseAvailability(availabilityText)] *)
Definition parseAvailability (availabilityText : string) : bool :=
  if negb (truthy availabilityText) then true
  else let text := toLowerCase availabilityText in
       negb (includes text "out of stock") &&
       negb (includes text "discontinued") &&
       negb (includes text "unavailable").

(** [ProductScraper.normalizeResults(results, supplier)] *)
Definition normalizeResults (now : string) (results : list raw)
           (s : supplier_id) : list listing :=
  map (fun it =>
    {| partNumber := r_partNumber it;
       name := r_productName it;
       price := Price.parsePrice_generic (r_priceText it);
       priceText := r_priceText it;
       availability := if truthy (r_availability it) then r_availability it
                       else "Contact supplier";
       inStock := parseAvailability (r_availability it);
       supplier := supplier_name s;
       productUrl := baseUrl s;
       lastUpdated := now;
       confidence := None;
       source := Some "live_scraping" |}) results.

Definition scrape (s : supplier_id) (c : container) : raw :=
  {| r_partNumber := getTextBySelectors c (partNumber_sels s);
     r_productName := getTextBySelectors c (productName_sels s);
     r_priceText := getTextBySelectors c (price_sels s);
     r_availability := getTextBySelectors c (availability_sels s);
     r_productUrl := EmptyString |}.

(** [if (partNumber && productName)] *)
Definition keep (r : raw) : bool :=
  truthy (r_partNumber r) && truthy (r_productName r).

(** [parseHTML(html, config, supplier)] (static fetch, at most 10) *)
Definition parseHTML (now : string) (p : page) (s : supplier_id) : list listing :=
  let cs := firstn 10 (first_containers p (productContainer s)) in
  normalizeResults now (List.filter keep (map (scrape s) cs)) s.

(** [scrapeWithAxios(supplier, query)]: errors give [[]] *)
Definition scrapeWithAxios (now : string) (static : option page)
           (s : supplier_id) : list listing :=
  match static with
  | None => []
  | Some p => parseHTML now p s
  end.

Definition maxConcurrentSessions := 3.

(** [scrapeWithPuppeteer(supplier, query)] seen from its caller:
    [None] is the rejection at capacity ([activeSessions] is [active]);
    every error inside the [try] gives [[]].  The in-page extraction
    queries the first container selector only. *)
Definition scrapeWithPuppeteer (now : string) (active : nat)
           (rendered : option page) (s : supplier_id) : option (list listing) :=
  if Nat.leb maxConcurrentSessions active then None
  else match rendered with
       | None => Some []
       | Some p =>
           if existsb (fun sel => match query_all p sel with [] => false | _ => true end)
                      (productContainer s)
           then
             let cs := firstn 10 (query_all p (hd EmptyString (productContainer s))) in
             Some (normalizeResults now (List.filter keep (map (scrape s) cs)) s)
           else Some []
       end.

End Generic.

(** *** ProductScraper.removeDuplicates *)

(** [`${item.partNumber}-${item.name}`.toLowerCase().replace(/\s+/g, '')];
    a scraped record has no [name] key, which the template prints as
    [undefined]. *)
Definition item_key (x : item) : string :=
  let k := match x with
           | Listing l => partNumber l ++ "-" ++ name l
           | Raw r => r_partNumber r ++ "-" ++ "undefined"
           end in
  strip_ws (toLowerCase k).

(** the [filter] with its [seen] set *)
Fixpoint dedup_from (seen : gset string) (l : list item) : list item :=
  match l with
  | [] => []
  | x :: l' =>
      if decide (item_key x ∈ seen) then dedup_from seen l'
      else x :: dedup_from ({[item_key x]} ∪ seen) l'
  end.

Definition removeDuplicates (l : list item) : list item := dedup_from ∅ l.

(** *** ProductScraper.searchSingleQuery *)

(** what one source's fetches meet: the static page ([None]: transport
    error), the rendered page ([None]: launch or navigation error) and the
    [activeSessions] value its rendered fetch reads *)
Record source_env := {
  static_page : option page;
  rendered_page : option page;
  sessions_seen : nat
}.

(** [scrapeWithAxios(...).then(r => r.length > 0 ? r : scrapeWithPuppeteer(...)).catch(() => [])] *)
Definition generic_source (now : string) (s : Generic.supplier_id)
           (env : source_env) : list item :=
  match Generic.scrapeWithAxios now (static_page env) s with
  | [] =>
      match Generic.scrapeWithPuppeteer now (sessions_seen env) (rendered_page env) s with
      | Some r => map Listing r
      | None => []
      end
  | r => map Listing r
  end.

(** [graingerScraper.getLivePrices(query, Math.ceil(maxResults / allSuppliers.length)).catch(() => [])],
    [allSuppliers] being mcmaster, mscdirect and grainger *)
Definition grainger_source (now query : string) (maxResults : num)
           (env : source_env) : list item :=
  match Grainger.getLivePrices now query (static_page env) (rendered_page env)
                               (ceil_div maxResults 3) with
  | Some r => r
  | None => []
  end.

(** [searchSingleQuery(query, maxResults)]: sources in the order
    [mcmaster], [mscdirect], [grainger]; [Promise.all] keeps that order. *)
Definition searchSingleQuery (now query : string) (maxResults : num)
           (env_mc env_msc env_gr : source_env) : list item :=
  let combined := (generic_source now Generic.mcmaster env_mc ++
                  generic_source now Generic.mscdirect env_msc ++
                  grainger_source now query maxResults env_gr)%list in
  slice0 (removeDuplicates combined) maxResults.

End Scraper.

(* ------------------------------------------------------------------ *)
(** ** LLMSearchEnhancer.smartSearch *)

Module Search.
Import Enhancer.

Record search_result (A : Type) := SR {
  results : list A;
  query : string;
  sr_originalQuery : string;
  sr_method : method;
  sr_confidence : nat;                       (** tenths *)
  sr_suggestions : option (list string)      (** only the last stage sets it *)
}.
Arguments SR {A}.
Arguments results {A}.
Arguments query {A}.
Arguments sr_originalQuery {A}.
Arguments sr_method {A}.
Arguments sr_confidence {A}.
Arguments sr_suggestions {A}.

Section SmartSearch.
Context {A : Type}.
Variable searchFn : string -> list A.

(** the [for (const suggestion of ...)] loop: its result if one
    suggestion found results, and the queries it passed to [searchFn] *)
Fixpoint try_suggestions (originalQuery : string) (ss : list string)
  : option (search_result A) * list string :=
  match ss with
  | [] => (None, [])
  | s :: ss' =>
      match searchFn s with
      | [] => let '(r, log) := try_suggestions originalQuery ss' in (r, s :: log)
      | res => (Some (SR res s originalQuery suggestion 7 None), [s])
      end
  end.

(** [smartSearch(originalQuery, searchFunction)] and the queries passed to
    [searchFunction], in order *)
Definition smartSearch (hasKey : bool) (ask : llm_oracle) (originalQuery : string)
  : search_result A * list string :=
  let e := fst (enhanceSearchQuery hasKey ask originalQuery) in
  match searchFn (enhancedQuery e) with
  | [] =>
      let '(r, log) := try_suggestions originalQuery (firstn 2 (suggestions e)) in
      match r with
      | Some r => (r, enhancedQuery e :: log)
      | None =>
          (SR (searchFn originalQuery) originalQuery originalQuery original 3
              (Some (suggestions e)),
           (enhancedQuery e :: log ++ [originalQuery])%list)
      end
  | res =>
      (SR res (enhancedQuery e) originalQuery (emethod e) (confidence e) None,
       [enhancedQuery e])
  end.

End SmartSearch.
End Search.

(* ------------------------------------------------------------------ *)
(** ** LLMSearchEnhancer.parseLLMResponse *)

Module LLMParse.
Import JS Enhancer.
Open Scope string_scope.

(** the values [JSON.parse] produces; numbers are kept as exact decimals *)
#[warnings="-register-all"]
Inductive json :=
| JNull
| JBool (b : bool)
| JNum (q : Q)
| JStr (s : string)
| JArr (l : list json)
| JObj (kvs : list (string * json)).

(** a key of a parsed object; [JSON.parse] keeps the last of duplicate
    keys; [None] is [undefined] *)
Definition obj_get (kvs : list (string * json)) (k : string) : option json :=
  fold_left (fun acc '(k', v) => if String.eqb k k' then Some v else acc) kvs None.

(** [parsed.k] on a value other than [null] (on [null] it throws): the
    strings, numbers, booleans and arrays have none of the keys read here *)
Definition prop (v : json) (k : string) : option json :=
  match v with
  | JObj kvs => obj_get kvs k
  | _ => None
  end.

(** JS truthiness; [None] is [undefined] *)
Definition truthy_json (v : option json) : bool :=
  match v with
  | None | Some JNull => false
  | Some (JBool b) => b
  | Some (JNum q) => negb (Qeq_bool q 0)
  | Some (JStr s) => truthy s
  | Some (JArr _) | Some (JObj _) => true
  end.

(** [v || d] *)
Definition or_default (v : option json) (d : json) : json :=
  match v with
  | Some j => if truthy_json v then j else d
  | None => d
  end.

(** the object [parseLLMResponse] returns; [lr_reasoning] is [None] when
    the key is absent or [undefined] *)
Record llm_result := LR {
  lr_originalQuery : string;
  lr_enhancedQuery : json;
  lr_suggestions : json;
  lr_confidence : json;
  lr_method : method;
  lr_reasoning : option json
}.

(** [s.split(c)] for a one-character separator *)
Fixpoint split_on (c : ascii) (s : string) : list string :=
  match s with
  | EmptyString => [EmptyString]
  | String a s' =>
      if Ascii.eqb a c then EmptyString :: split_on c s'
      else match split_on c s' with
           | w :: ws => String a w :: ws
           | [] => [String a EmptyString]
           end
  end.

(** the part after the first colon, if any *)
Fixpoint drop_label (s : string) : option string :=
  match s with
  | EmptyString => None
  | String a s' => if Ascii.eqb a ":"%char then Some s' else drop_label s'
  end.

(** [s.replace(/^[^:]*:/, '')]: the greedy [[^:]*] stops before the first
    colon, so the match, if any, is the prefix up to the first colon *)
Definition replace_label (s : string) : string :=
  match drop_label s with Some r => r | None => s end.

(** the newline character *)
Definition nl : ascii := ascii_of_nat 10.

(** the predicate of [lines.find(...)] *)
Definition mentions (line : string) : bool :=
  includes (toLowerCase line) "enhanced" || includes (toLowerCase line) "search".

(** the [catch] branch of [parseLLMResponse]; the line [find] returns is
    non-empty, so the [|| originalQuery] applies only when none is found *)
Definition text_fallback (originalQuery llmResponse : string) : llm_result :=
  let lines := List.filter (fun line => truthy (trim line)) (split_on nl llmResponse) in
  let enhancedQuery := match find mentions lines with
                       | Some line => line
                       | None => originalQuery
                       end in
  {| lr_originalQuery := originalQuery;
     lr_enhancedQuery := JStr (trim (replace_label enhancedQuery));
     lr_suggestions := JArr [];
     lr_confidence := JNum (6 # 10);
     lr_method := llm_fallback;
     lr_reasoning := None |}.

(** [parseLLMResponse(originalQuery, llmResponse)]; [json_parse] is
    [JSON.parse] ([None]: it throws).  Reading a key of a parsed [null]
    throws a TypeError, which the same [catch] handles. *)
Definition parseLLMResponse (json_parse : string -> option json)
           (originalQuery llmResponse : string) : llm_result :=
  match json_parse llmResponse with
  | None | Some JNull => text_fallback originalQuery llmResponse
  | Some parsed =>
      {| lr_originalQuery := originalQuery;
         lr_enhancedQuery := or_default (prop parsed "enhancedQuery") (JStr originalQuery);
         lr_suggestions := or_default (prop parsed "alternatives") (JArr []);
         lr_confidence := or_default (prop parsed "confidence") (JNum (6 # 10));
         lr_method := llm;
         lr_reasoning := prop parsed "reasoning" |}
  end.

End LLMParse.

(* ------------------------------------------------------------------ *)
(** ** The session counter of ProductScraper

    [activeSessions] is shared by all concurrent [scrapeWithPuppeteer]
    calls of the process; the check and the increment run without an
    [await] between them, and the decrement sits in the [finally] block.
    The Grainger scraper opens its pages in [getPricesWithPuppeteer]
    without reading or changing the counter. *)

Module Sessions.

Record state := {
  activeSessions : nat;
  ps_open : nat;     (** ProductScraper rendered fetches in flight *)
  gr_open : nat      (** Grainger rendered fetches in flight *)
}.

Definition init : state := {| activeSessions := 0; ps_open := 0; gr_open := 0 |}.

Inductive begin_result := Acquired | CapacityExceeded.

(** how the [try] block of a rendered fetch is left *)
Inductive exit_path := exit_success | exit_error | exit_timeout.

(** entry of [scrapeWithPuppeteer]: the capacity check throws at once *)
Definition ps_begin (st : state) : state * begin_result :=
  if Nat.leb Scraper.Generic.maxConcurrentSessions (activeSessions st)
  then (st, CapacityExceeded)
  else ({| activeSessions := S (activeSessions st); ps_open := S (ps_open st);
           gr_open := gr_open st |}, Acquired).

(** leaving the [try] block.  Whatever the exit path, [finally] runs
    [if (page) { await page.close(); } this.activeSessions--;]: [close] is
    [None] when no page was opened, [Some true] when [page.close()]
    resolves, and [Some false] when it rejects, which throws out of
    [finally] before the decrement.  [ps_open] counts the fetches in
    flight, so it drops in every case. *)
Definition ps_end (st : state) (o : exit_path) (close : option bool) : state :=
  let finally_ := fun st' =>
    match close with
    | Some false => {| activeSessions := activeSessions st';
                       ps_open := ps_open st' - 1;
                       gr_open := gr_open st' |}
    | _ => {| activeSessions := activeSessions st' - 1;
              ps_open := ps_open st' - 1;
              gr_open := gr_open st' |}
    end in
  match o with
  | exit_success => finally_ st
  | exit_error => finally_ st
  | exit_timeout => finally_ st
  end.

Definition gr_begin (st : state) : state :=
  {| activeSessions := activeSessions st; ps_open := ps_open st;
     gr_open := S (gr_open st) |}.

Definition gr_end (st : state) : state :=
  {| activeSessions := activeSessions st; ps_open := ps_open st;
     gr_open := gr_open st - 1 |}.

(** one fetch starting or ending, interleaved with the others *)
Inductive step : state -> state -> Prop :=
| step_ps_begin st : step st (fst (ps_begin st))
| step_ps_end st o c : 0 < ps_open st -> step st (ps_end st o c)
| step_gr_begin st : step st (gr_begin st)
| step_gr_end st : 0 < gr_open st -> step st (gr_end st).

(** the states reachable from [st0] by interleaving fetches *)
Inductive reachable_from (st0 : state) : state -> Prop :=
| rf_refl : reachable_from st0 st0
| rf_step st st' : reachable_from st0 st -> step st st' -> reachable_from st0 st'.

Definition reachable : state -> Prop := reachable_from init.

End Sessions.

(* ------------------------------------------------------------------ *)
(** ** searchAllSuppliers and the HTTP routes

    [limit] is the value of [parseInt(limit)]: any integer, or [NaN] for a
    text without leading digits (an absent [limit] gives [Int 10] or, in
    [/api/test-grainger], [Int 5]); [now] stands for [new Date().toISOString()], and the
    [timestamp] keys of the responses are left out. *)

Module Api.
Import JS Enhancer Scraper Search.
Open Scope string_scope.

(** what the mcmaster, mscdirect and grainger fetches meet for a query *)
Definition web := string -> source_env * source_env * source_env.

(** [async (enhancedQuery) => scraper.searchSingleQuery(enhancedQuery, maxResults)] *)
Definition searchFn_of (now : string) (w : web) (maxResults : num) (q : string)
  : list item :=
  let '(mc, msc, gr) := w q in searchSingleQuery now q maxResults mc msc gr.

(** [ProductScraper.searchAllSuppliers(query, maxResults)] *)
Definition searchAllSuppliers (now : string) (w : web) (hasKey : bool)
           (ask : llm_oracle) (query : string) (maxResults : num) : list item :=
  results (fst (smartSearch (searchFn_of now w maxResults) hasKey ask query)).

(** the literal list of the 404 branch *)
Definition default_suggestions : list string :=
  ["Try a more specific part number"; "Check spelling";
   "Use manufacturer part numbers when possible"; "Try broader search terms"].

(** [['grainger', ...Object.keys(SUPPLIERS)]] *)
Definition suppliersSearched : list string := ["grainger"; "mcmaster"; "mscdirect"].

(** responses of [GET /api/search] *)
Inductive search_response :=
| S400
| S404 (query originalQuery : string) (enhancementMethod : method)
       (suggestions : list string)
| S200 (results : list item) (query originalQuery : string)
       (enhancementMethod : method) (confidence : nat) (resultCount : nat)
       (suppliers : list string).

(** [GET /api/search?q=query&limit=limit] ([None]: no [q] parameter) and
    the queries passed to [searchSingleQuery].  Neither [smartSearch] nor
    [searchSingleQuery] throws, so the 500 branch is not reached. *)
Definition api_search (now : string) (w : web) (hasKey : bool) (ask : llm_oracle)
           (q : option string) (limit : num) : search_response * list string :=
  match q with
  | None => (S400, [])
  | Some query =>
      if negb (truthy query) || Nat.ltb (String.length (trim query)) 2 then (S400, [])
      else
        let '(sr, log) := smartSearch (searchFn_of now w limit) hasKey ask query in
        match results sr with
        | [] =>
            (S404 (Search.query sr) (sr_originalQuery sr) (sr_method sr)
                  (match sr_suggestions sr with
                   | Some s => s
                   | None => default_suggestions
                   end), log)
        | rs =>
            (S200 rs (Search.query sr) (sr_originalQuery sr) (sr_method sr)
                  (sr_confidence sr) (length rs) suppliersSearched, log)
        end
  end.

(** responses of [GET /api/test-grainger] *)
Inductive grainger_response :=
| G400
| G500
| G200 (results : list item) (query : string) (resultCount : nat).

(** [GET /api/test-grainger?q=query&limit=limit] (default limit 5) *)
Definition api_test_grainger (now : string) (q : option string) (limit : num)
           (static rendered : option page) : grainger_response :=
  match q with
  | None => G400
  | Some query =>
      if negb (truthy query) then G400
      else match Grainger.getLivePrices now query static rendered limit with
           | None => G500
           | Some rs => G200 rs query (length rs)
           end
  end.



End Api.

(* ------------------------------------------------------------------ *)
(** ** Sample pages and records *)

Module Samples.
Import JS Scraper.
Open Scope string_scope.

(** a product tile as Grainger renders it *)
Definition grainger_tile : container :=
  {| first_text := fun sel =>
       if String.eqb sel "[data-automation-id='product-item-number']" then "6203-2Z"
       else if String.eqb sel "[data-automation-id='product-title'] a" then "Ball Bearing"
       else if String.eqb sel "[data-automation-id='product-price'] .price-value" then "$12.34"
       else EmptyString;
     link_attr := "/product/6203-2Z";
     link_abs := "https://www.grainger.com/product/6203-2Z" |}.

(** a page without any product container (e.g. before scripts ran) *)
Definition empty_page : page := {| query_all := fun _ => [] |}.

(** the rendered Grainger search page *)
Definition grainger_rendered : page :=
  {| query_all := fun sel =>
       if String.eqb sel "[data-automation-id='product-tile']" then [grainger_tile] else [] |}.

(** a source whose static page has no products and whose browser fails *)
Definition env_nothing : source_env :=
  {| static_page := Some empty_page; rendered_page := None; sessions_seen := 0 |}.

Definition env_grainger : source_env :=
  {| static_page := Some empty_page; rendered_page := Some grainger_rendered;
     sessions_seen := 0 |}.

(** a McMaster row with a part number and a description but no price *)
Definition mcmaster_row_no_price : container :=
  {| first_text := fun sel =>
       if String.eqb sel ".PartNumber" then "6203K11"
       else if String.eqb sel ".ProductDescription" then "Ball Bearing"
       else EmptyString;
     link_attr := EmptyString; link_abs := EmptyString |}.

Definition mcmaster_page : page :=
  {| query_all := fun sel =>
       if String.eqb sel ".ProductTableRow" then [mcmaster_row_no_price] else [] |}.

Definition raw_record (pn nm pt av url : string) : raw :=
  {| r_partNumber := pn; r_productName := nm; r_priceText := pt;
     r_availability := av; r_productUrl := url |}.

(** a listing of [supplier] with the given part number and name *)
Definition mk_listing (sup pn nm : string) : listing :=
  {| partNumber := pn; name := nm; price := None; priceText := EmptyString;
     availability := "Contact supplier"; inStock := true; supplier := sup;
     productUrl := EmptyString; lastUpdated := "2026-01-01T00:00:00.000Z";
     confidence := None; source := Some "live_scraping" |}.

(** a McMaster page on which only the second row selector matches *)
Definition mcmaster_page_rows : page :=
  {| query_all := fun sel =>
       if String.eqb sel "tr[data-testid='product-row']" then [mcmaster_row_no_price] else [] |}.

(** a Grainger tile whose product link has an absolute [href] *)
Definition grainger_tile_abs : container :=
  {| first_text := first_text grainger_tile;
     link_attr := "https://www.grainger.com/product/6203-2Z";
     link_abs := "https://www.grainger.com/product/6203-2Z" |}.

Definition grainger_page_abs : page :=
  {| query_all := fun sel =>
       if String.eqb sel "[data-automation-id='product-tile']" then [grainger_tile_abs] else [] |}.

(** a second Grainger tile, and a static page showing both tiles *)
Definition grainger_tile2 : container :=
  {| first_text := fun sel =>
       if String.eqb sel "[data-automation-id='product-item-number']" then "6204-2Z"
       else if String.eqb sel "[data-automation-id='product-title'] a" then "Ball Bearing"
       else if String.eqb sel "[data-automation-id='product-price'] .price-value" then "$14.10"
       else EmptyString;
     link_attr := "/product/6204-2Z";
     link_abs := "https://www.grainger.com/product/6204-2Z" |}.

Definition grainger_page2 : page :=
  {| query_all := fun sel =>
       if String.eqb sel "[data-automation-id='product-tile']"
       then [grainger_tile; grainger_tile2] else [] |}.

(** a second McMaster row, and a McMaster source whose static page shows
    both rows *)
Definition mcmaster_row2 : container :=
  {| first_text := fun sel =>
       if String.eqb sel ".PartNumber" then "6204K12"
       else if String.eqb sel ".ProductDescription" then "Ball Bearing"
       else if String.eqb sel ".Price" then "$7.50"
       else EmptyString;
     link_attr := EmptyString; link_abs := EmptyString |}.

Definition env_mcmaster2 : source_env :=
  {| static_page := Some {| query_all := fun sel =>
                              if String.eqb sel ".ProductTableRow"
                              then [mcmaster_row_no_price; mcmaster_row2] else [] |};
     rendered_page := None; sessions_seen := 0 |}.

(** a search function with results for "6203 bearing" only *)
Definition search_6203 (q : string) : list item :=
  if String.eqb q "6203 bearing"
  then [Listing (mk_listing "grainger" "6203" "Ball Bearing")] else [].

End Samples.

(* ================================================================== *)
(** * Properties *)

(** ** Helper lemmas *)

Import JS Scraper.

Lemma in_map_listing_inv (f : raw -> listing) (rs : list raw) l :
  In l (map f rs) -> exists it, In it rs /\ l = f it.
Proof. intros H. apply in_map_iff in H as (it & <- & Hin). eauto. Qed.

(** ** C1: every item of [searchSingleQuery] is normalized *)

(** C1 (code_bug).  When Grainger's static page shows no product tile and
    the rendered page does, [getPricesWithPuppeteer] returns the extracted
    records without [normalizeResults]; they reach the output of
    [searchSingleQuery] as they are (no [price], [supplier], [inStock],
    [confidence], no [name] key). *)
Lemma C1_grainger_rendered_records_not_normalized :
  Scraper.searchSingleQuery "2026-01-01T00:00:00.000Z" "6203 bearing" (Int 10)
    Samples.env_nothing Samples.env_nothing Samples.env_grainger
  = [Scraper.Raw (Samples.raw_record "6203-2Z" "Ball Bearing" "$12.34" EmptyString
                    "https://www.grainger.com/product/6203-2Z")].
Proof. vm_compute. reflexivity. Qed.

(** ** C2: confidence *)

(** the [+0.3] of [calculateConfidence], read off the listing's price *)
Definition price_bonus (p : option Z) : nat :=
  match p with Some v => if Z.eqb v 0 then 0 else 3 | None => 0 end.

(** C2 (corrected), counterexample.  The listings of
    [ProductScraper.normalizeResults] carry no [confidence] key; and a
    Grainger price parsed as [0] earns no [+0.3]. *)
Lemma C2_generic_listing_without_confidence :
  (exists l, In l (Generic.normalizeResults "2026-01-01T00:00:00.000Z"
                     [Samples.raw_record "6203K11" "Ball Bearing" "$5.00" EmptyString EmptyString]
                     Generic.mcmaster)
             /\ confidence l = None)
  /\ Price.parsePrice "$0.00" = Some 0%Z
  /\ Grainger.calculateConfidence
       (Samples.raw_record "6203-2Z" "Ball Bearing" "$0.00" EmptyString EmptyString) = 6.
Proof.
  split; [|split; vm_compute; reflexivity].
  eexists; split; [left; reflexivity | reflexivity].
Qed.

(** C2 (corrected).  Every listing of the Grainger normalizer (hence of
    [parseHTMLForPrices]) has confidence
    [min(1, 0.5 + 0.3 [price parsed, non-zero] + 0.1 [partNumber length > 3]
    + 0.1 [productUrl non-empty])], which lies in [0.5, 1] (in tenths);
    every listing of [ProductScraper.normalizeResults] (mcmaster,
    mscdirect) has no confidence field. *)
Theorem C2_grainger_confidence :
  (forall (now : string) (rs : list raw) (l : listing),
     In l (Grainger.normalizeResults now rs) ->
     exists c, confidence l = Some c
       /\ c = Nat.min 10 (5 + price_bonus (price l)
                           + (if Nat.ltb 3 (String.length (partNumber l)) then 1 else 0)
                           + (if truthy (productUrl l) then 1 else 0))
       /\ 5 <= c <= 10)
  /\ (forall (now : string) (rs : list raw) (s : Generic.supplier_id) (l : listing),
        In l (Generic.normalizeResults now rs s) -> confidence l = None).
Proof.
  split.
  - unfold Grainger.normalizeResults. intros now rs l Hin.
    apply in_map_listing_inv in Hin as (it & _ & ->).
    cbn [confidence price partNumber productUrl].
    eexists; split; [reflexivity|].
    unfold Grainger.calculateConfidence, price_bonus.
    assert (Hp : (truthy (r_priceText it) &&
                  match Price.parsePrice (r_priceText it) with
                  | Some p => negb (Z.eqb p 0) | None => false end)
                 = match Price.parsePrice (r_priceText it) with
                   | Some p => negb (Z.eqb p 0) | None => false end).
    { destruct (r_priceText it); reflexivity. }
    assert (Hn : (truthy (r_partNumber it) && Nat.ltb 3 (String.length (r_partNumber it)))
                 = Nat.ltb 3 (String.length (r_partNumber it))).
    { destruct (r_partNumber it); reflexivity. }
    rewrite Hp, Hn. clear Hp Hn.
    destruct (Nat.ltb 3 (String.length (r_partNumber it)));
      destruct (truthy (r_productUrl it));
      destruct (Price.parsePrice (r_priceText it)) as [v|];
      try destruct (Z.eqb v 0); cbn -[Nat.min]; split; lia.
  - unfold Generic.normalizeResults. intros now rs s l Hin.
    apply in_map_listing_inv in Hin as (it & _ & ->). reflexivity.
Qed.

Lemma C2_grainger_confidence_witness :
  (exists c, confidence
       {| partNumber := "6203-2Z"; name := "Ball Bearing"; price := Some 1234%Z;
          priceText := "$12.34"; availability := "Contact supplier"; inStock := true;
          supplier := "grainger"; productUrl := "https://www.grainger.com/product/6203-2Z";
          lastUpdated := "2026-01-01T00:00:00.000Z"; confidence := Some 10;
          source := None |} = Some c
     /\ c = Nat.min 10 (5 + 3 + 1 + 1) /\ 5 <= c <= 10)
  /\ forall l, In l (Generic.normalizeResults "2026-01-01T00:00:00.000Z"
                      [Samples.raw_record "6203K11" "Ball Bearing" "$5.00" EmptyString EmptyString]
                      Generic.mcmaster) -> confidence l = None.
Proof.
  split.
  - apply (proj1 C2_grainger_confidence "2026-01-01T00:00:00.000Z"
             [Samples.raw_record "6203-2Z" "Ball Bearing" "$12.34" EmptyString
                "https://www.grainger.com/product/6203-2Z"]).
    left. vm_compute. reflexivity.
  - intros l. apply (proj2 C2_grainger_confidence).
Defined.

(** ** C10: product URLs of the generic path *)

(** C10 (confirmed).  Every listing of [ProductScraper.normalizeResults]
    has as [productUrl] the supplier's configured [baseUrl], whatever the
    scraped record; so has every listing the mcmaster and mscdirect fetches
    contribute to [searchSingleQuery]. *)
Theorem C10_generic_productUrl_is_baseUrl :
  (forall now rs s l, In l (Generic.normalizeResults now rs s) ->
     productUrl l = Generic.baseUrl s)
  /\ (forall now s env l, In (Listing l) (generic_source now s env) ->
     productUrl l = Generic.baseUrl s).
Proof.
  assert (Hn : forall now rs s l, In l (Generic.normalizeResults now rs s) ->
                 productUrl l = Generic.baseUrl s).
  { intros now rs s l Hin. unfold Generic.normalizeResults in Hin.
    apply in_map_listing_inv in Hin as (it & _ & ->). reflexivity. }
  split; [exact Hn|].
  intros now s env l Hin. unfold generic_source in Hin.
  assert (Hl : forall ls, In (Listing l) (map Listing ls) -> In l ls).
  { intros ls H. apply in_map_iff in H as (l' & Heq & H'). inversion Heq; subst; exact H'. }
  destruct (Generic.scrapeWithAxios now (static_page env) s) as [|x xs] eqn:Ha.
  - destruct (Generic.scrapeWithPuppeteer now (sessions_seen env) (rendered_page env) s)
      as [r|] eqn:Hp; [|destruct Hin].
    apply Hl in Hin. unfold Generic.scrapeWithPuppeteer in Hp.
    destruct (Nat.leb Generic.maxConcurrentSessions (sessions_seen env)); [discriminate|].
    destruct (rendered_page env) as [p|]; [|inversion Hp; subst; destruct Hin].
    destruct (existsb _ _); inversion Hp; subst; [eapply Hn; exact Hin | destruct Hin].
  - apply Hl in Hin. unfold Generic.scrapeWithAxios in Ha.
    destruct (static_page env) as [p|]; [|discriminate].
    unfold Generic.parseHTML in Ha. rewrite <- Ha in Hin. eapply Hn; exact Hin.
Qed.

Lemma C10_generic_productUrl_is_baseUrl_witness :
  exists l, In (Listing l) (generic_source "2026-01-01T00:00:00.000Z" Generic.mcmaster
                             {| static_page := Some Samples.mcmaster_page;
                                rendered_page := None; sessions_seen := 0 |})
            /\ productUrl l = "https://www.mcmaster.com".
Proof.
  eexists. split.
  - vm_compute. left. reflexivity.
  - apply (proj2 C10_generic_productUrl_is_baseUrl "2026-01-01T00:00:00.000Z" Generic.mcmaster
             {| static_page := Some Samples.mcmaster_page;
                rendered_page := None; sessions_seen := 0 |}).
    vm_compute. left. reflexivity.
Defined.

(** ** C3: the session limiter *)

Lemma step_bounds st st' :
  Sessions.ps_open st <= Sessions.activeSessions st <= 3 ->
  Sessions.step st st' ->
  Sessions.ps_open st' <= Sessions.activeSessions st' <= 3.
Proof.
  intros IH Hs. destruct Hs as [st | st o c Hopen | st | st Hopen].
  - unfold Sessions.ps_begin, Generic.maxConcurrentSessions.
    destruct (Nat.leb 3 (Sessions.activeSessions st)) eqn:Hle; cbn; [exact IH|].
    apply Nat.leb_gt in Hle. lia.
  - destruct o, c as [[|]|]; cbn; lia.
  - exact IH.
  - exact IH.
Qed.

Lemma reachable_bounds st :
  Sessions.reachable st -> Sessions.ps_open st <= Sessions.activeSessions st <= 3.
Proof.
  induction 1 as [|st st' _ IH Hs]; [cbn; lia|]. exact (step_bounds _ _ IH Hs).
Qed.

(** three fetches whose [page.close()] rejects, one after the other *)
Definition leaked_three : Sessions.state :=
  let leak := fun st => Sessions.ps_end (fst (Sessions.ps_begin st)) Sessions.exit_success
                                        (Some false) in
  leak (leak (leak Sessions.init)).

(** C3 (code_bug).  The counter is not decremented on every exit path:
    [finally] awaits [page.close()] before [this.activeSessions--], so a
    [page.close()] that rejects leaves [finally] before the decrement,
    whatever the exit path of the [try] block.  In every reachable state
    the counter is at least the number of ProductScraper rendered fetches
    in flight and at most 3, and a fetch started at capacity fails at once
    with the capacity error; a fetch that ends with a resolved (or no)
    [page.close()] decrements the counter, one whose [page.close()] rejects
    leaves it unchanged.  Three such fetches leave the counter at 3 with no
    fetch in flight, and from there on it stays at 3 and every rendered
    fetch of ProductScraper fails with the capacity error.  Grainger's
    rendered fetches do not touch the counter. *)
Theorem C3_close_rejection_leaks_counter :
  (forall st, Sessions.reachable st ->
     Sessions.ps_open st <= Sessions.activeSessions st
     /\ Sessions.activeSessions st <= Generic.maxConcurrentSessions)
  /\ (forall st, Generic.maxConcurrentSessions <= Sessions.activeSessions st ->
        Sessions.ps_begin st = (st, Sessions.CapacityExceeded))
  /\ (forall st o c, c <> Some false ->
        Sessions.activeSessions (Sessions.ps_end st o c) = Sessions.activeSessions st - 1)
  /\ (forall st o, Sessions.activeSessions (Sessions.ps_end st o (Some false))
                   = Sessions.activeSessions st)
  /\ Sessions.reachable leaked_three
  /\ Sessions.activeSessions leaked_three = 3 /\ Sessions.ps_open leaked_three = 0
  /\ (forall st, Sessions.reachable_from leaked_three st ->
        Sessions.activeSessions st = 3 /\ Sessions.ps_open st = 0
        /\ Sessions.ps_begin st = (st, Sessions.CapacityExceeded))
  /\ (forall st, Sessions.activeSessions (Sessions.gr_begin st)
                 = Sessions.activeSessions st).
Proof.
  assert (Hcap : forall st, Generic.maxConcurrentSessions <= Sessions.activeSessions st ->
                   Sessions.ps_begin st = (st, Sessions.CapacityExceeded)).
  { intros st H. unfold Sessions.ps_begin. apply Nat.leb_le in H. rewrite H. reflexivity. }
  split; [|split; [exact Hcap|split; [|split; [|split; [|split; [|split; [|split]]]]]]].
  - intros st H. apply reachable_bounds in H. unfold Generic.maxConcurrentSessions. lia.
  - intros st [] [[|]|] Hc; cbn; congruence.
  - intros st []; reflexivity.
  - assert (Hl : forall st, Sessions.reachable st -> Sessions.activeSessions st < 3 ->
              Sessions.reachable (Sessions.ps_end (fst (Sessions.ps_begin st))
                                    Sessions.exit_success (Some false))).
    { intros st H Ha. eapply Sessions.rf_step;
        [eapply Sessions.rf_step; [exact H | apply Sessions.step_ps_begin]
        | apply Sessions.step_ps_end].
      unfold Sessions.ps_begin, Generic.maxConcurrentSessions.
      replace (Nat.leb 3 (Sessions.activeSessions st)) with false
        by (symmetry; apply Nat.leb_gt; exact Ha).
      cbn. lia. }
    unfold leaked_three. cbv zeta.
    apply Hl; [apply Hl; [apply Hl; [apply Sessions.rf_refl|]|]|]; vm_compute; lia.
  - reflexivity.
  - reflexivity.
  - induction 1 as [|st st' _ IH Hs].
    + split; [reflexivity|]. split; [reflexivity|]. apply Hcap. reflexivity.
    + destruct IH as (Ha & Hp & Hb).
      destruct Hs as [st | st o c Hopen | st | st Hopen].
      * rewrite Hb. cbn. split; [exact Ha|]. split; [exact Hp|]. rewrite Hb. reflexivity.
      * lia.
      * cbn. split; [exact Ha|]. split; [exact Hp|]. apply Hcap. cbn. rewrite Ha. reflexivity.
      * cbn. split; [exact Ha|]. split; [exact Hp|]. apply Hcap. cbn. rewrite Ha. reflexivity.
  - reflexivity.
Qed.

Lemma C3_close_rejection_leaks_counter_witness :
  (Sessions.ps_open leaked_three <= Sessions.activeSessions leaked_three
   /\ Sessions.activeSessions leaked_three <= Generic.maxConcurrentSessions)
  /\ Sessions.activeSessions
       (Sessions.ps_end (fst (Sessions.ps_begin Sessions.init)) Sessions.exit_error (Some true))
     = 0
  /\ Sessions.ps_begin (Sessions.gr_begin leaked_three)
     = (Sessions.gr_begin leaked_three, Sessions.CapacityExceeded).
Proof.
  destruct C3_close_rejection_leaks_counter as (Hinv & _ & Hdec & _ & Hr & _ & _ & Hstuck & _).
  split; [exact (Hinv _ Hr)|]. split.
  - rewrite (Hdec (fst (Sessions.ps_begin Sessions.init)) Sessions.exit_error (Some true) ltac:(discriminate)). reflexivity.
  - apply (Hstuck (Sessions.gr_begin leaked_three)).
    eapply Sessions.rf_step; [apply Sessions.rf_refl | apply Sessions.step_gr_begin].
Defined.

(** ** C4: availability *)

Lemma prefix_spec (k s : string) :
  String.prefix k s = true <-> exists b, s = (k ++ b)%string.
Proof.
  revert s. induction k as [|a k IH]; intros s; cbn.
  - split; [intros _; exists s; reflexivity | destruct s; reflexivity].
  - destruct s as [|c s]; cbn.
    + split; [discriminate | intros [b Hb]; discriminate].
    + destruct (ascii_dec a c) as [->|Hne].
      * rewrite IH. split; intros [b Hb]; exists b; [now rewrite Hb | now inversion Hb].
      * split; [discriminate | intros [b Hb]; inversion Hb; congruence].
Qed.

(** [s] contains [k] *)
Definition contains (s k : string) : Prop := exists a b, s = (a ++ k ++ b)%string.

Lemma includes_spec (s k : string) : includes s k = true <-> contains s k.
Proof.
  unfold contains. induction s as [|c s IH]; cbn [includes].
  - rewrite orb_false_r, prefix_spec. split.
    + intros [b Hb]. exists EmptyString, b. exact Hb.
    + intros [a [b Hab]]. destruct a; [exists b; exact Hab | discriminate].
  - rewrite orb_true_iff, prefix_spec, IH. split.
    + intros [[b Hb] | [a [b Hab]]].
      * exists EmptyString, b. exact Hb.
      * exists (String c a), b. cbn. now rewrite Hab.
    + intros [a [b Hab]]. destruct a as [|c' a].
      * left. exists b. exact Hab.
      * right. exists a, b. cbn in Hab. now inversion Hab.
Qed.

Lemma not_available_iff (t : string) (kws : list string) :
  (if negb (truthy t) then true
   else negb (existsb (fun k => includes (toLowerCase t) k) kws)) = false
  <-> t <> EmptyString /\ exists k, In k kws /\ contains (toLowerCase t) k.
Proof.
  destruct t as [|c t']; cbn [truthy negb].
  - split; [discriminate | intros [H _]; congruence].
  - rewrite negb_false_iff, existsb_exists. split.
    + intros (k & Hin & Hk). split; [discriminate|]. exists k. split; [exact Hin|].
      now apply includes_spec.
    + intros [_ (k & Hin & Hk)]. exists k. split; [exact Hin|]. now apply includes_spec.
Qed.

Definition generic_unavailableKeywords := ["out of stock"; "discontinued"; "unavailable"].

Lemma generic_listing_empty_availability now cs s l :
  In l (Generic.normalizeResults now (List.filter Generic.keep (map (Generic.scrape s) cs)) s) ->
  inStock l = Grainger.parseAvailability EmptyString /\ inStock l = true.
Proof.
  unfold Generic.normalizeResults. intros H. apply in_map_listing_inv in H as (r & Hr & ->).
  apply filter_In in Hr as [Hr _]. apply in_map_iff in Hr as (c & <- & _).
  split; reflexivity.
Qed.

(** C4 (confirmed).  The Grainger classifier marks a text unavailable iff
    it is non-empty and its lower-cased form contains one of "out of stock",
    "discontinued", "unavailable", "backordered", "special order",
    "not available", and every listing of the Grainger normalizer gets
    [inStock] from it on its record's availability text.  No supplier of
    [SUPPLIERS] configures an availability selector, so every listing of
    [ProductScraper] (static parse or rendered fetch) is classified from
    the empty text, as available, the value the deny-list classifier gives
    to [""].  ProductScraper's own classifier, which knows only "out of
    stock", "discontinued" and "unavailable", is thus only ever applied to
    [""].  "" and "Ships in 2 days" are available, "Out of Stock" is not. *)
Theorem C4_availability :
  (forall t, Grainger.parseAvailability t = false <->
     t <> EmptyString /\ exists k, In k Grainger.unavailableKeywords /\ contains (toLowerCase t) k)
  /\ (forall now rs l, In l (Grainger.normalizeResults now rs) ->
        exists r, In r rs /\ inStock l = Grainger.parseAvailability (r_availability r))
  /\ (forall now p s l, In l (Generic.parseHTML now p s) ->
        inStock l = Grainger.parseAvailability EmptyString /\ inStock l = true)
  /\ (forall now a rp s ls l, Generic.scrapeWithPuppeteer now a rp s = Some ls -> In l ls ->
        inStock l = Grainger.parseAvailability EmptyString /\ inStock l = true)
  /\ (forall t, Generic.parseAvailability t = false <->
     t <> EmptyString /\ exists k, In k generic_unavailableKeywords /\ contains (toLowerCase t) k)
  /\ Grainger.parseAvailability "Out of Stock" = false
  /\ Grainger.parseAvailability EmptyString = true
  /\ Grainger.parseAvailability "Ships in 2 days" = true
  /\ Generic.parseAvailability "Out of Stock" = false
  /\ Generic.parseAvailability EmptyString = true
  /\ Generic.parseAvailability "Ships in 2 days" = true.
Proof.
  split; [|split; [|split; [|split; [|split; [|vm_compute; repeat split]]]]].
  - intros t. exact (not_available_iff t Grainger.unavailableKeywords).
  - unfold Grainger.normalizeResults. intros now rs l H.
    apply in_map_listing_inv in H as (r & Hr & ->). exists r. split; [exact Hr | reflexivity].
  - intros now p s l H. exact (generic_listing_empty_availability _ _ _ _ H).
  - intros now a rp s ls l. unfold Generic.scrapeWithPuppeteer.
    destruct (Nat.leb _ a); [discriminate|].
    destruct rp as [p|]; [|intros [= <-]; cbn; tauto].
    destruct (existsb _ _); intros [= <-]; [|cbn; tauto].
    apply generic_listing_empty_availability.
  - intros t. rewrite <- not_available_iff. unfold Generic.parseAvailability.
    destruct (negb (truthy t)); [reflexivity|].
    cbn. destruct (includes (toLowerCase t) "out of stock"),
                  (includes (toLowerCase t) "discontinued"),
                  (includes (toLowerCase t) "unavailable"); reflexivity.
Qed.

Lemma C4_availability_witness :
  (Grainger.parseAvailability "Backordered" = false <->
     "Backordered" <> EmptyString /\ exists k, In k Grainger.unavailableKeywords
       /\ contains (toLowerCase "Backordered") k)
  /\ Grainger.parseAvailability "Backordered" = false.
Proof.
  split; [exact (proj1 C4_availability "Backordered")|].
  apply (proj1 C4_availability). split; [discriminate|].
  exists "backordered". split; [cbn; tauto|]. exists EmptyString, EmptyString. reflexivity.
Defined.

(** ** C8: deduplication *)

(** the canonical key in the words of the spec: lower-cased,
    whitespace-stripped concatenation of partNumber and name *)
Definition spec_key (x : item) : string :=
  match x with
  | Listing l => strip_ws (toLowerCase (partNumber l ++ name l))
  | Raw r => strip_ws (toLowerCase (r_partNumber r ++ r_productName r))
  end.

Lemma dedup_from_fresh (seen : gset string) (l : list item) :
  NoDup (map item_key (dedup_from seen l))
  /\ (forall y, In y (dedup_from seen l) -> item_key y ∉ seen).
Proof.
  revert seen. induction l as [|x l IH]; intros seen; cbn.
  - split; [constructor | intros _ []].
  - destruct (decide (item_key x ∈ seen)) as [Hx|Hx]; [apply IH|].
    destruct (IH ({[item_key x]} ∪ seen)) as [Hnd Hfresh]. split.
    + cbn. constructor; [|exact Hnd].
      intros Hin. apply list_elem_of_In, in_map_iff in Hin as (y & Hy & Hin).
      apply Hfresh in Hin. rewrite Hy in Hin. set_solver.
    + intros y [<- | Hin]; [exact Hx|].
      apply Hfresh in Hin. set_solver.
Qed.

Lemma dedup_from_covers (seen : gset string) (l : list item) (x : item) :
  In x l -> item_key x ∈ seen \/
            exists y, In y (dedup_from seen l) /\ item_key y = item_key x.
Proof.
  revert seen. induction l as [|x0 l IH]; intros seen Hin; [destruct Hin|]. cbn.
  destruct (decide (item_key x0 ∈ seen)) as [Hx|Hx].
  - destruct Hin as [<- | Hin]; [left; exact Hx | exact (IH seen Hin)].
  - destruct Hin as [<- | Hin].
    + right. exists x0. split; [left|]; reflexivity.
    + destruct (IH ({[item_key x0]} ∪ seen) Hin) as [Hs | (y & Hy & Hk)].
      * apply elem_of_union in Hs as [Hs | Hs].
        -- apply elem_of_singleton in Hs. right. exists x0. split; [left; reflexivity|].
           symmetry. exact Hs.
        -- left. exact Hs.
      * right. exists y. split; [right; exact Hy | exact Hk].
Qed.

Lemma dedup_from_first (seen : gset string) (l : list item) (y : item) :
  In y (dedup_from seen l) ->
  exists pre post, l = (pre ++ y :: post)%list
                   /\ Forall (fun z => item_key z <> item_key y) pre.
Proof.
  revert seen. induction l as [|x l IH]; intros seen Hin; [destruct Hin|]. cbn in Hin.
  destruct (decide (item_key x ∈ seen)) as [Hx|Hx].
  - pose proof (proj2 (dedup_from_fresh seen l) y Hin) as Hy.
    destruct (IH seen Hin) as (pre & post & -> & Hpre).
    exists (x :: pre), post. split; [reflexivity|]. constructor; [|exact Hpre].
    intros Heq. apply Hy. rewrite <- Heq. exact Hx.
  - destruct Hin as [<- | Hin].
    + exists [], l. split; [reflexivity | constructor].
    + pose proof (proj2 (dedup_from_fresh _ l) y Hin) as Hy.
      destruct (IH _ Hin) as (pre & post & -> & Hpre).
      exists (x :: pre), post. split; [reflexivity|]. constructor; [|exact Hpre].
      intros Heq. apply Hy. rewrite <- Heq. set_solver.
Qed.

(** C8 (corrected), counterexample.  The key of [removeDuplicates] puts a
    "-" between partNumber and name: two listings whose spec key is
    "6203bearing" ("6203" + "bearing" and "62" + "03 bearing") have the
    code keys "6203-bearing" and "62-03bearing", and both survive. *)
Lemma C8_separator_keeps_both :
  spec_key (Listing (Samples.mk_listing "mcmaster" "6203" "bearing")) = "6203bearing"
  /\ spec_key (Listing (Samples.mk_listing "mscdirect" "62" "03 bearing")) = "6203bearing"
  /\ removeDuplicates [Listing (Samples.mk_listing "mcmaster" "6203" "bearing");
                       Listing (Samples.mk_listing "mscdirect" "62" "03 bearing")]
     = [Listing (Samples.mk_listing "mcmaster" "6203" "bearing");
        Listing (Samples.mk_listing "mscdirect" "62" "03 bearing")].
Proof. vm_compute. repeat split; lia. Qed.

(** C8 (corrected).  With the key [item_key] (lower-cased,
    whitespace-stripped partNumber + "-" + name): the output of
    [removeDuplicates] has at most one item per key, every key of the input
    is kept, and the item kept for a key is its first occurrence in input
    order; two listings "6203"/"Bearing" from mcmaster and mscdirect leave
    the mcmaster one. *)
Theorem C8_removeDuplicates :
  (forall l, NoDup (map item_key (removeDuplicates l)))
  /\ (forall l x, In x l -> exists y, In y (removeDuplicates l) /\ item_key y = item_key x)
  /\ (forall l y, In y (removeDuplicates l) ->
        exists pre post, l = (pre ++ y :: post)%list
                         /\ Forall (fun z => item_key z <> item_key y) pre)
  /\ removeDuplicates [Listing (Samples.mk_listing "mcmaster" "6203" "Bearing");
                       Listing (Samples.mk_listing "mscdirect" "6203" "Bearing")]
     = [Listing (Samples.mk_listing "mcmaster" "6203" "Bearing")].
Proof.
  split; [|split; [|split]].
  - intros l. exact (proj1 (dedup_from_fresh ∅ l)).
  - intros l x Hin. destruct (dedup_from_covers ∅ l x Hin) as [H | H]; [set_solver | exact H].
  - intros l y Hin. exact (dedup_from_first ∅ l y Hin).
  - vm_compute. reflexivity.
Qed.

Lemma C8_removeDuplicates_witness :
  let l := [Listing (Samples.mk_listing "mcmaster" "6203" "Bearing");
            Listing (Samples.mk_listing "mscdirect" "6203 " "bearing")] in
  In (Listing (Samples.mk_listing "mscdirect" "6203 " "bearing")) l
  /\ exists y, In y (removeDuplicates l)
               /\ item_key y = item_key (Listing (Samples.mk_listing "mscdirect" "6203 " "bearing")).
Proof.
  cbv zeta. split; [right; left; reflexivity|].
  apply (proj1 (proj2 C8_removeDuplicates)). right; left; reflexivity.
Defined.

(** ** C5: which scraped records are promoted *)






(** ** C7: price parsing *)

Section Matcher.
Import Regex.

Lemma star_loop_result (step : nat -> caps -> kont -> option (nat * caps)) (k : kont) :
  (forall i c k' x, step i c k' = Some x ->
     exists j pre, k' j (pre ++ c)%list = Some x) ->
  forall n i c x, star_loop step k n i c = Some x ->
  exists j pre, k j (pre ++ c)%list = Some x.
Proof.
  intros Hstep n. induction n as [|n IHn]; intros i c x H; cbn in H.
  - exists i, []. exact H.
  - destruct (step i c _) as [y|] eqn:E.
    + inversion H; subst. clear H.
      apply Hstep in E as (j & pre & Hk).
      destruct (Nat.eqb j i); [discriminate|].
      apply IHn in Hk as (j' & pre' & Hk').
      exists j', (pre' ++ pre)%list. rewrite <- app_assoc. exact Hk'.
    + exists i, []. exact H.
Qed.

(** A match returns what the continuation returned, on captures that
    extend the initial ones, and with every group the pattern always sets. *)
Lemma m_result (g fuel : nat) (r : re) (s : list ascii) :
  forall i c k x, m fuel r s i c k = Some x ->
  exists j pre, k j (pre ++ c)%list = Some x
                /\ (captures g r = true -> In g (map fst pre)).
Proof.
  induction r as [p | r1 IH1 r2 IH2 | r1 IH1 r2 IH2 | r1 IH1 | | | g' r1 IH1];
    intros i c k x H; cbn [m captures] in *.
  - destruct (nth_error s i) as [a|]; [|discriminate].
    destruct (p a); [|discriminate]. exists (S i), []. split; [exact H | discriminate].
  - apply IH1 in H as (j1 & pre1 & H1 & C1).
    apply IH2 in H1 as (j2 & pre2 & H2 & C2).
    exists j2, (pre2 ++ pre1)%list. rewrite <- app_assoc. split; [exact H2|].
    intros Hc. rewrite map_app. apply in_or_app.
    apply orb_true_iff in Hc as [Hc|Hc]; [right; exact (C1 Hc) | left; exact (C2 Hc)].
  - destruct (m fuel r1 s i c k) eqn:E.
    + inversion H; subst. apply IH1 in E as (j & pre & Hk & C1).
      exists j, pre. split; [exact Hk|]. intros Hc. apply andb_true_iff in Hc. exact (C1 (proj1 Hc)).
    + apply IH2 in H as (j & pre & Hk & C2).
      exists j, pre. split; [exact Hk|]. intros Hc. apply andb_true_iff in Hc. exact (C2 (proj2 Hc)).
  - eapply star_loop_result in H as (j & pre & Hk).
    + exists j, pre. split; [exact Hk | discriminate].
    + intros i' c' k' x' Hs. apply IH1 in Hs as (j & pre & Hk & _). eauto.
  - exists i, []. split; [exact H | discriminate].
  - destruct (boundary s i); [|discriminate]. exists i, []. split; [exact H | discriminate].
  - apply IH1 in H as (j & pre & Hk & C1).
    exists j, ((g', (i, j)) :: pre). split; [exact Hk|].
    intros Hc. cbn. apply orb_true_iff in Hc as [Hc|Hc].
    + left. apply Nat.eqb_eq in Hc. exact Hc.
    + right. exact (C1 Hc).
Qed.

Lemma find_group (g : nat) (l : caps) :
  In g (map fst l) -> exists p, find (fun p => Nat.eqb (fst p) g) l = Some p.
Proof.
  induction l as [|p l IH]; cbn; [intros []|].
  intros [Hp | Hin].
  - exists p. rewrite Hp, Nat.eqb_refl. reflexivity.
  - destruct (Nat.eqb (fst p) g); [eauto | exact (IH Hin)].
Qed.

Lemma search_from_group (g : nat) (r : re) (s : list ascii) :
  captures g r = true ->
  forall n i mr, search_from r s i n = Some mr ->
  exists a b, find (fun p => Nat.eqb (fst p) g) (m_caps mr) = Some (g, (a, b)).
Proof.
  intros Hc n. induction n as [|n IHn]; intros i mr H; cbn in H;
    destruct (m _ r s i [] _) as [[j c]|] eqn:E.
  1, 3: inversion H; subst; cbn;
        apply (m_result g) in E as (j' & pre & Hk & Cg);
        inversion Hk; subst; rewrite app_nil_r;
        destruct (find_group g pre (Cg Hc)) as [[g' [a b]] Hf];
        pose proof Hf as Hf'; apply find_some in Hf' as [_ Heq];
        apply Nat.eqb_eq in Heq; cbn in Heq; subst g'; eauto.
  - discriminate.
  - exact (IHn _ _ H).
Qed.

Lemma exec_group (g : nat) (r : re) (str : string) (mr : mresult) :
  captures g r = true -> exec r str = Some mr -> exists t, group str mr g = Some t.
Proof.
  intros Hc H. unfold exec in H. apply (search_from_group g) in H as (a & b & Hf); [|exact Hc].
  unfold group. rewrite Hf. eauto.
Qed.

End Matcher.

Section PriceProofs.
Import Regex Price.

Lemma price_of_match_group (r : re) (s : string) (mr : mresult) :
  captures 1 r = true -> exec r s = Some mr ->
  exists t, group s mr 1 = Some t /\ price_of_match r s = Some (Some (parseFloat_cents t)).
Proof.
  intros Hc H. destruct (exec_group 1 r s mr Hc H) as [t Ht].
  exists t. split; [exact Ht|]. unfold price_of_match. rewrite H, Ht. reflexivity.
Qed.

Lemma price_of_match_none (r : re) (s : string) :
  exec r s = None -> price_of_match r s = None.
Proof. intros H. unfold price_of_match. rewrite H. reflexivity. Qed.

Lemma price_of_match_some (r : re) (s : string) v :
  captures 1 r = true -> price_of_match r s = Some v -> exists p, v = Some p.
Proof.
  intros Hc H. unfold price_of_match in H.
  destruct (exec r s) as [mr|] eqn:E; [|discriminate].
  destruct (price_of_match_group r s mr Hc E) as (t & Ht & _).
  rewrite Ht in H. inversion H. eauto.
Qed.

Lemma truthy_nonempty (s : string) : truthy s = true <-> s <> EmptyString.
Proof. destruct s; cbn; split; congruence. Qed.

(** C7 (corrected), counterexample.  ProductScraper's parser is a single
    pattern (optional "$" and a number) taking the first number of the
    text: on "2 for $10.00" it gives 2, where the currency-prefixed
    pattern, tried first in the three-pattern order, matches "$10.00". *)
Lemma C7_generic_single_pattern :
  Price.parsePrice_generic "2 for $10.00" = Some 200%Z
  /\ (exists mr, exec p_currency "2 for $10.00" = Some mr
                 /\ group "2 for $10.00" mr 1 = Some "10.00")
  /\ Price.parsePrice "2 for $10.00" = Some 1000%Z.
Proof.
  split; [vm_compute; reflexivity|]. split; [|vm_compute; reflexivity].
  eexists. split; vm_compute; reflexivity.
Qed.

(** C7 (corrected).  Grainger's [parsePrice] tries the currency-prefixed,
    the "USD"/"dollar(s)" suffixed and the "Price:" labelled pattern in
    this order, the first that matches gives the price of its number with
    the commas removed, and it returns null iff the text is empty or no
    pattern matches.  ProductScraper's [parsePrice] takes the first match
    of the one pattern optional "$" + number, null iff none.  Both give
    "$123.45" -> 123.45, "1,234.56 USD" -> 1234.56, "Price: $99" -> 99 and
    null on a text without a number (prices in cents). *)
Theorem C7_price_parsing :
  (forall s, parsePrice s = None <->
     s = EmptyString \/ (exec p_currency s = None /\ exec p_usd s = None
                         /\ exec p_labeled s = None))
  /\ (forall s mr, s <> EmptyString -> exec p_currency s = Some mr ->
        exists t, group s mr 1 = Some t /\ parsePrice s = Some (parseFloat_cents t))
  /\ (forall s mr, s <> EmptyString -> exec p_currency s = None -> exec p_usd s = Some mr ->
        exists t, group s mr 1 = Some t /\ parsePrice s = Some (parseFloat_cents t))
  /\ (forall s mr, s <> EmptyString -> exec p_currency s = None -> exec p_usd s = None ->
        exec p_labeled s = Some mr ->
        exists t, group s mr 1 = Some t /\ parsePrice s = Some (parseFloat_cents t))
  /\ (forall s, parsePrice_generic s = None <-> s = EmptyString \/ exec p_generic s = None)
  /\ (forall s mr, s <> EmptyString -> exec p_generic s = Some mr ->
        exists t, group s mr 1 = Some t /\ parsePrice_generic s = Some (parseFloat_cents t))
  /\ parsePrice "$123.45" = Some 12345%Z
  /\ parsePrice "1,234.56 USD" = Some 123456%Z
  /\ parsePrice "Price: $99" = Some 9900%Z
  /\ parsePrice "call for quote" = None
  /\ parsePrice_generic "$123.45" = Some 12345%Z
  /\ parsePrice_generic "1,234.56 USD" = Some 123456%Z
  /\ parsePrice_generic "Price: $99" = Some 9900%Z
  /\ parsePrice_generic "call for quote" = None.
Proof.
  assert (C1 : captures 1 p_currency = true) by reflexivity.
  assert (C2 : captures 1 p_usd = true) by reflexivity.
  assert (C3 : captures 1 p_labeled = true) by reflexivity.
  assert (C4 : captures 1 p_generic = true) by reflexivity.
  split; [|split; [|split; [|split; [|split; [|split]]]]].
  - intros s. unfold parsePrice. destruct (truthy s) eqn:Ht.
    + apply truthy_nonempty in Ht. split.
      * intros H. right. cbn [first_match patterns] in H.
        destruct (price_of_match p_currency s) as [v|] eqn:E1.
        { destruct (price_of_match_some _ _ _ C1 E1) as [p ->]. discriminate. }
        destruct (price_of_match p_usd s) as [v|] eqn:E2.
        { destruct (price_of_match_some _ _ _ C2 E2) as [p ->]. discriminate. }
        destruct (price_of_match p_labeled s) as [v|] eqn:E3.
        { destruct (price_of_match_some _ _ _ C3 E3) as [p ->]. discriminate. }
        unfold price_of_match in E1, E2, E3.
        destruct (exec p_currency s); [destruct (group _ _ _); discriminate|].
        destruct (exec p_usd s); [destruct (group _ _ _); discriminate|].
        destruct (exec p_labeled s); [destruct (group _ _ _); discriminate|].
        auto.
      * intros [-> | (E1 & E2 & E3)]; [congruence|]. cbn [first_match patterns].
        rewrite !price_of_match_none by assumption. reflexivity.
    + split; [intros _; left; destruct s; [reflexivity | discriminate] | reflexivity].
  - intros s mr Hs H. destruct (price_of_match_group _ _ _ C1 H) as (t & Ht & Hp).
    exists t. split; [exact Ht|]. unfold parsePrice.
    apply truthy_nonempty in Hs. rewrite Hs. cbn. rewrite Hp. reflexivity.
  - intros s mr Hs H1 H. destruct (price_of_match_group _ _ _ C2 H) as (t & Ht & Hp).
    exists t. split; [exact Ht|]. unfold parsePrice.
    apply truthy_nonempty in Hs. rewrite Hs. cbn. rewrite price_of_match_none, Hp by exact H1.
    reflexivity.
  - intros s mr Hs H1 H2 H. destruct (price_of_match_group _ _ _ C3 H) as (t & Ht & Hp).
    exists t. split; [exact Ht|]. unfold parsePrice.
    apply truthy_nonempty in Hs. rewrite Hs. cbn.
    rewrite (price_of_match_none p_currency), (price_of_match_none p_usd), Hp by assumption.
    reflexivity.
  - intros s. unfold parsePrice_generic. destruct (truthy s) eqn:Ht.
    + apply truthy_nonempty in Ht. destruct (exec p_generic s) as [mr|] eqn:E.
      * destruct (price_of_match_group _ _ _ C4 E) as (t & _ & ->).
        split; [discriminate | intros [H | H]; congruence].
      * rewrite price_of_match_none by exact E. split; [intros _; right; reflexivity | reflexivity].
    + split; [intros _; left; destruct s; [reflexivity | discriminate] | reflexivity].
  - intros s mr Hs H. destruct (price_of_match_group _ _ _ C4 H) as (t & Ht & Hp).
    exists t. split; [exact Ht|]. unfold parsePrice_generic.
    apply truthy_nonempty in Hs. rewrite Hs, Hp. reflexivity.
  - vm_compute. repeat split.
Qed.

Lemma C7_price_parsing_witness :
  exists mr, exec p_usd "1,234.56 USD" = Some mr
             /\ group "1,234.56 USD" mr 1 = Some "1,234.56"
             /\ parsePrice "1,234.56 USD" = Some (parseFloat_cents "1,234.56").
Proof.
  assert (Hne : "1,234.56 USD" <> EmptyString) by discriminate.
  assert (H1 : exec p_currency "1,234.56 USD" = None) by (vm_compute; reflexivity).
  destruct (exec p_usd "1,234.56 USD") as [mr|] eqn:E; [|vm_compute in E; discriminate].
  exists mr. split; [reflexivity|].
  destruct (proj1 (proj2 (proj2 C7_price_parsing)) _ mr Hne H1 E) as (t & Ht & Hp).
  split; [|rewrite Hp; f_equal; f_equal;
           vm_compute in E; inversion E; subst; vm_compute in Ht; inversion Ht; reflexivity].
  vm_compute in E. inversion E; subst. vm_compute. reflexivity.
Defined.

End PriceProofs.

(** ** C6: rule-based enhancement and the LLM threshold *)

Section EnhancerProofs.
Import Regex Enhancer.

Lemma pattern2_loop_overwrites (nq : string) ms st1 st2 :
  existsb (fun '(generic, _) => includes nq generic && Nat.leb (split_space_count nq) 2) ms = true ->
  pattern2_loop nq ms st1 = pattern2_loop nq ms st2.
Proof.
  induction ms as [|[generic specific] ms IH]; cbn; [discriminate|].
  destruct (includes nq generic && Nat.leb (split_space_count nq) 2); [reflexivity|exact IH].
Qed.

Lemma pattern3_loop_overwrites (nq : string) ms st1 st2 :
  existsb (fun '(equipment, _) => includes nq equipment) ms = true ->
  pattern3_loop nq ms st1 = pattern3_loop nq ms st2.
Proof.
  induction ms as [|[equipment parts] ms IH]; cbn; [discriminate|].
  destruct (includes nq equipment); [reflexivity|exact IH].
Qed.

(** C6 (corrected), counterexample.  On "pump 6203" the part-number check
    alone scores 0.9, yet the category and equipment checks still run and
    overwrite it: the rule result is "pump seal" with 0.7, which does not
    pass the [> 0.7] test, so with a key configured the LLM is called. *)
Lemma C6_later_checks_overwrite :
  rs_conf (pattern1 "pump 6203" (RS "pump 6203" 5 [])) = 9
  /\ enhancedQuery (ruleBasedEnhancement "pump 6203") = "pump seal"
  /\ confidence (ruleBasedEnhancement "pump 6203") = 7
  /\ snd (enhanceSearchQuery true (fun _ => None) "pump 6203") = ["pump 6203"].
Proof. vm_compute. repeat split; lia. Qed.

(** C6 (corrected).  All four checks run, in the order part number (0.9),
    category (0.8), equipment (0.7), size (0.8), and each one that applies
    overwrites the query and confidence left by the earlier ones.
    [enhanceSearchQuery] returns the rule result without calling the LLM
    iff its final confidence is above 0.7; otherwise it calls the LLM once
    when a key is configured and passes the query through unchanged (0.3)
    when not.  "6203" gives "6203 bearing" with 0.9 and no LLM call. *)
Theorem C6_rule_checks_and_threshold :
  (forall nq st1 st2, exec p_partNumber nq <> None ->
     rs_query (pattern1 nq st1) = rs_query (pattern1 nq st2)
     /\ rs_conf (pattern1 nq st1) = 9)
  /\ (forall nq st1 st2,
        existsb (fun '(generic, _) => includes nq generic
                   && Nat.leb (split_space_count nq) 2) categoryMappings = true ->
        pattern2 nq st1 = pattern2 nq st2 /\ rs_conf (pattern2 nq st1) = 8)
  /\ (forall nq st1 st2,
        existsb (fun '(equipment, _) => includes nq equipment) equipmentMappings = true ->
        pattern3 nq st1 = pattern3 nq st2 /\ rs_conf (pattern3 nq st1) = 7)
  /\ (forall nq st1 st2, exec p_size nq <> None -> includes nq "bearing" = true ->
        rs_query (pattern4 nq st1) = rs_query (pattern4 nq st2)
        /\ rs_conf (pattern4 nq st1) = 8)
  /\ (forall hasKey ask q, 7 < confidence (ruleBasedEnhancement q) ->
        enhanceSearchQuery hasKey ask q = (ruleBasedEnhancement q, []))
  /\ (forall ask q, confidence (ruleBasedEnhancement q) <= 7 ->
        snd (enhanceSearchQuery true ask q) = [q])
  /\ (forall ask q, confidence (ruleBasedEnhancement q) <= 7 ->
        snd (enhanceSearchQuery false ask q) = []
        /\ enhancedQuery (fst (enhanceSearchQuery false ask q)) = q
        /\ emethod (fst (enhanceSearchQuery false ask q)) = passthrough
        /\ confidence (fst (enhanceSearchQuery false ask q)) = 3)
  /\ (forall hasKey ask,
        enhanceSearchQuery hasKey ask "6203" = (ruleBasedEnhancement "6203", [])
        /\ enhancedQuery (ruleBasedEnhancement "6203") = "6203 bearing"
        /\ confidence (ruleBasedEnhancement "6203") = 9).
Proof.
  assert (Hlow : forall hasKey ask q, confidence (ruleBasedEnhancement q) <= 7 ->
            enhanceSearchQuery hasKey ask q =
            if hasKey then
              match ask q with
              | Some e => (e, [q])
              | None => ({| originalQuery := q; enhancedQuery := q;
                            suggestions := generateSuggestions q; confidence := 3;
                            emethod := error_fallback |}, [q])
              end
            else ({| originalQuery := q; enhancedQuery := q;
                     suggestions := generateSuggestions q; confidence := 3;
                     emethod := passthrough |}, [])).
  { intros hasKey ask q H. unfold enhanceSearchQuery.
    apply Nat.ltb_ge in H. rewrite H. reflexivity. }
  assert (Hhigh : forall hasKey ask q, 7 < confidence (ruleBasedEnhancement q) ->
            enhanceSearchQuery hasKey ask q = (ruleBasedEnhancement q, [])).
  { intros hasKey ask q H. unfold enhanceSearchQuery.
    apply Nat.ltb_lt in H. rewrite H. reflexivity. }
  split; [|split; [|split; [|split; [|split; [|split; [|split]]]]]].
  - intros nq st1 st2 H. unfold pattern1.
    destruct (exec p_partNumber nq); [split; reflexivity | congruence].
  - intros nq st1 st2 H. split; [exact (pattern2_loop_overwrites nq _ st1 st2 H)|].
    unfold pattern2. revert H. generalize categoryMappings as ms.
    induction ms as [|[generic specific] ms IH]; cbn; [discriminate|].
    destruct (includes nq generic && Nat.leb (split_space_count nq) 2); [reflexivity|exact IH].
  - intros nq st1 st2 H. split; [exact (pattern3_loop_overwrites nq _ st1 st2 H)|].
    unfold pattern3. revert H. generalize equipmentMappings as ms.
    induction ms as [|[equipment parts] ms IH]; cbn; [discriminate|].
    destruct (includes nq equipment); [reflexivity|exact IH].
  - intros nq st1 st2 H Hb. unfold pattern4.
    destruct (exec p_size nq); [rewrite Hb; split; reflexivity | congruence].
  - exact Hhigh.
  - intros ask q H. rewrite (Hlow true ask q H). destruct (ask q); reflexivity.
  - intros ask q H. rewrite (Hlow false ask q H). repeat split.
  - intros hasKey ask. split; [apply Hhigh; vm_compute; lia | vm_compute; split; reflexivity].
Qed.

Lemma C6_rule_checks_and_threshold_witness :
  confidence (ruleBasedEnhancement "conveyor") <= 7
  /\ snd (enhanceSearchQuery true (fun _ => None) "conveyor") = ["conveyor"]
  /\ 7 < confidence (ruleBasedEnhancement "SKF-6203")
  /\ enhanceSearchQuery false (fun _ => None) "SKF-6203" = (ruleBasedEnhancement "SKF-6203", []).
Proof.
  assert (H1 : confidence (ruleBasedEnhancement "conveyor") <= 7) by (vm_compute; lia).
  assert (H2 : 7 < confidence (ruleBasedEnhancement "SKF-6203")) by (vm_compute; lia).
  split; [exact H1|]. split.
  - exact (proj1 (proj2 (proj2 (proj2 (proj2 (proj2 C6_rule_checks_and_threshold)))))
             (fun _ => None) "conveyor" H1).
  - split; [exact H2|].
    exact (proj1 (proj2 (proj2 (proj2 (proj2 C6_rule_checks_and_threshold))))
             false (fun _ => None) "SKF-6203" H2).
Defined.

End EnhancerProofs.

(** ** C9: the smartSearch cascade *)

Section SearchProofs.
Import Enhancer Search.
Context {A : Type}.

Lemma try_suggestions_found (searchFn : string -> list A) (q : string)
      (pre post : list string) (sg : string) :
  Forall (fun s => searchFn s = []) pre -> searchFn sg <> [] ->
  try_suggestions searchFn q (pre ++ sg :: post)%list
  = (Some (SR (searchFn sg) sg q suggestion 7 None), (pre ++ [sg])%list).
Proof.
  intros Hpre Hsg. induction Hpre as [|s pre Hs Hpre IH]; cbn.
  - destruct (searchFn sg); [congruence | reflexivity].
  - rewrite Hs, IH. reflexivity.
Qed.

Lemma try_suggestions_none (searchFn : string -> list A) (q : string) (ss : list string) :
  Forall (fun s => searchFn s = []) ss -> try_suggestions searchFn q ss = (None, ss).
Proof.
  induction 1 as [|s ss Hs _ IH]; cbn; [reflexivity|]. rewrite Hs, IH. reflexivity.
Qed.

End SearchProofs.

Section SearchClaims.
Import Enhancer Search.

(** C9 (corrected), counterexample.  Without an LLM key "xyz" is passed
    through with confidence 0.3 and the default suggestions; the first one,
    "6203 bearing", finds results, which are reported with the fixed
    confidence 0.7 of the suggestion stage, higher than the enhancer's. *)
Lemma C9_suggestion_confidence_not_lower :
  confidence (fst (enhanceSearchQuery false (fun _ => None) "xyz")) = 3
  /\ sr_method (fst (smartSearch Samples.search_6203 false (fun _ => None) "xyz")) = suggestion
  /\ sr_confidence (fst (smartSearch Samples.search_6203 false (fun _ => None) "xyz")) = 7
  /\ 3 < 7.
Proof. vm_compute. repeat split; lia. Qed.

(** C9 (corrected).  [smartSearch] tries the enhanced query, then the
    first two suggestions in order, then the original query, each only if
    every earlier attempt found nothing; the first attempt with results
    ends the cascade and is reported with its query and the enhancer's
    method and confidence (stage 1), [suggestion] and the fixed 0.7
    (stage 2), or [original] and the fixed 0.3 (stage 3, returned even
    without results).  With a search function that finds results only for
    "6203 bearing", [smartSearch "6203"] returns them with method
    [rule_based]. *)
Theorem C9_smartSearch_cascade :
  (forall (A : Type) (searchFn : string -> list A) hasKey ask q,
     let e := fst (enhanceSearchQuery hasKey ask q) in
     searchFn (enhancedQuery e) <> [] ->
     smartSearch searchFn hasKey ask q
     = (SR (searchFn (enhancedQuery e)) (enhancedQuery e) q (emethod e) (confidence e) None,
        [enhancedQuery e]))
  /\ (forall (A : Type) (searchFn : string -> list A) hasKey ask q pre sg post,
     let e := fst (enhanceSearchQuery hasKey ask q) in
     searchFn (enhancedQuery e) = [] ->
     firstn 2 (suggestions e) = (pre ++ sg :: post)%list ->
     Forall (fun s => searchFn s = []) pre -> searchFn sg <> [] ->
     smartSearch searchFn hasKey ask q
     = (SR (searchFn sg) sg q suggestion 7 None, (enhancedQuery e :: pre ++ [sg])%list))
  /\ (forall (A : Type) (searchFn : string -> list A) hasKey ask q,
     let e := fst (enhanceSearchQuery hasKey ask q) in
     searchFn (enhancedQuery e) = [] ->
     Forall (fun s => searchFn s = []) (firstn 2 (suggestions e)) ->
     smartSearch searchFn hasKey ask q
     = (SR (searchFn q) q q original 3 (Some (suggestions e)),
        (enhancedQuery e :: firstn 2 (suggestions e) ++ [q])%list))
  /\ (forall hasKey ask,
        results (fst (smartSearch Samples.search_6203 hasKey ask "6203"))
          = Samples.search_6203 "6203 bearing"
        /\ Samples.search_6203 "6203 bearing" <> []
        /\ sr_method (fst (smartSearch Samples.search_6203 hasKey ask "6203")) = rule_based).
Proof.
  split; [|split; [|split]].
  - intros A searchFn hasKey ask q e H. unfold smartSearch. fold e.
    destruct (searchFn (enhancedQuery e)); [congruence | reflexivity].
  - intros A searchFn hasKey ask q pre sg post e H1 Hs Hpre Hsg. unfold smartSearch. fold e.
    rewrite H1, Hs, (try_suggestions_found searchFn q pre post sg Hpre Hsg). reflexivity.
  - intros A searchFn hasKey ask q e H1 Hs. unfold smartSearch. fold e.
    rewrite H1, (try_suggestions_none searchFn q _ Hs). reflexivity.
  - intros hasKey ask.
    assert (He : fst (enhanceSearchQuery hasKey ask "6203") = ruleBasedEnhancement "6203").
    { unfold enhanceSearchQuery. reflexivity. }
    unfold smartSearch. rewrite He. vm_compute. repeat split. discriminate.
Qed.

Lemma C9_smartSearch_cascade_witness :
  let e := fst (enhanceSearchQuery false (fun _ => None) "xyz") in
  Samples.search_6203 (enhancedQuery e) = []
  /\ firstn 2 (suggestions e) = ([] ++ "6203 bearing" :: ["hydraulic seal"])%list
  /\ smartSearch Samples.search_6203 false (fun _ => None) "xyz"
     = (SR (Samples.search_6203 "6203 bearing") "6203 bearing" "xyz" suggestion 7 None,
        (enhancedQuery e :: [] ++ ["6203 bearing"])%list).
Proof.
  cbv zeta.
  assert (H1 : Samples.search_6203 (enhancedQuery (fst (enhanceSearchQuery false (fun _ => None) "xyz"))) = [])
    by (vm_compute; reflexivity).
  assert (H2 : firstn 2 (suggestions (fst (enhanceSearchQuery false (fun _ => None) "xyz")))
               = ([] ++ "6203 bearing" :: ["hydraulic seal"])%list)
    by (vm_compute; reflexivity).
  split; [exact H1|]. split; [exact H2|].
  apply (proj1 (proj2 C9_smartSearch_cascade) _ Samples.search_6203 false (fun _ => None)
           "xyz" [] "6203 bearing" ["hydraulic seal"] H1 H2 (List.Forall_nil _)).
  vm_compute. discriminate.
Defined.

End SearchClaims.

(* ================================================================== *)
(** * Further properties of the code *)

(** ** Sizes of the scraper results *)

Section ScraperBounds.
Import Grainger.

Lemma each_until_int {A} z i (l : list A) :
  each_until (Int z) i l = firstn (Z.to_nat (z - Z.of_nat i)) l.
Proof.
  revert i. induction l as [|c l IH]; intros i; cbn [each_until].
  - destruct (Z.to_nat _); reflexivity.
  - unfold index_ge. destruct (Z.leb z (Z.of_nat i)) eqn:E.
    + apply Z.leb_le in E. replace (Z.to_nat (z - Z.of_nat i)) with 0 by lia. reflexivity.
    + apply Z.leb_gt in E. rewrite IH.
      replace (Z.to_nat (z - Z.of_nat i)) with (S (Z.to_nat (z - Z.of_nat (S i)))) by lia.
      reflexivity.
Qed.

Lemma forEach_below_int {A} z i (l : list A) :
  forEach_below (Int z) i l = firstn (Z.to_nat (z - Z.of_nat i)) l.
Proof.
  revert i. induction l as [|c l IH]; intros i; cbn [forEach_below].
  - destruct (Z.to_nat _); reflexivity.
  - unfold index_ge. destruct (Z.leb z (Z.of_nat i)) eqn:E.
    + apply Z.leb_le in E. rewrite IH.
      replace (Z.to_nat (z - Z.of_nat i)) with 0 by lia.
      replace (Z.to_nat (z - Z.of_nat (S i))) with 0 by lia. reflexivity.
    + apply Z.leb_gt in E. rewrite IH.
      replace (Z.to_nat (z - Z.of_nat i)) with (S (Z.to_nat (z - Z.of_nat (S i)))) by lia.
      reflexivity.
Qed.

Lemma each_until_nan {A} i (l : list A) : each_until NaN i l = l.
Proof. revert i. induction l as [|c l IH]; intros i; cbn; [|rewrite IH]; reflexivity. Qed.

Lemma forEach_below_nan {A} i (l : list A) : forEach_below NaN i l = l.
Proof. revert i. induction l as [|c l IH]; intros i; cbn; [|rewrite IH]; reflexivity. Qed.

Lemma each_until_In {A} n i (l : list A) x : In x (each_until n i l) -> In x l.
Proof.
  revert i. induction l as [|c l IH]; intros i; cbn; [tauto|].
  destruct (index_ge i n); cbn; [tauto|]. intros [-> | H]; [left; reflexivity | right; exact (IH _ H)].
Qed.

Lemma firstn_all_le {A} N (l : list A) : length l <= N -> firstn N l = l.
Proof. intros H. apply firstn_all2. exact H. Qed.

Lemma grainger_parse_length now p z :
  length (parseHTMLForPrices now p (Int z)) <= Z.to_nat z.
Proof.
  unfold parseHTMLForPrices, normalizeResults. rewrite length_map.
  etransitivity; [apply List.filter_length_le|]. rewrite length_map.
  rewrite each_until_int, Z.sub_0_r. apply List.firstn_le_length.
Qed.

Lemma grainger_extract_length p z : length (extractPricingData p (Int z)) <= Z.to_nat z.
Proof.
  unfold extractPricingData.
  etransitivity; [apply List.filter_length_le|]. rewrite length_map.
  rewrite forEach_below_int, Z.sub_0_r. apply List.firstn_le_length.
Qed.

(** [NaN] as [maxResults] keeps every container, as a cap no smaller
    than the number of containers does *)
Lemma grainger_parse_nan now p N :
  length (first_containers p productContainer) <= N ->
  parseHTMLForPrices now p NaN = parseHTMLForPrices now p (Int (Z.of_nat N)).
Proof.
  intros H. unfold parseHTMLForPrices.
  rewrite each_until_nan, each_until_int, Z.sub_0_r, Nat2Z.id, firstn_all_le by exact H.
  reflexivity.
Qed.

Lemma grainger_extract_nan p N :
  length (first_containers p productContainer) <= N ->
  extractPricingData p NaN = extractPricingData p (Int (Z.of_nat N)).
Proof.
  intros H. unfold extractPricingData.
  rewrite forEach_below_nan, forEach_below_int, Z.sub_0_r, Nat2Z.id, firstn_all_le by exact H.
  reflexivity.
Qed.

Lemma getLivePrices_length now q st rd z r :
  getLivePrices now q st rd (Int z) = Some r -> length r <= Z.to_nat z.
Proof.
  unfold getLivePrices. destruct (Nat.ltb _ 2); [discriminate|].
  destruct st as [p|]; [|discriminate].
  destruct (parseHTMLForPrices now p (Int z)) as [|x xs] eqn:E.
  - unfold getPricesWithPuppeteer. destruct rd as [p'|]; [|discriminate].
    destruct (waitForProducts p'); [|discriminate].
    intros [= <-]. rewrite length_map. apply grainger_extract_length.
  - intros H. injection H as H. subst r. cbn [length]. rewrite length_map.
    change (length (x :: xs) <= Z.to_nat z). rewrite <- E. apply grainger_parse_length.
Qed.

Lemma getLivePrices_nan now q p rd :
  getLivePrices now q (Some p) rd NaN
  = getLivePrices now q (Some p) rd
      (Int (Z.of_nat (length (first_containers p productContainer)
                      + match rd with
                        | Some p' => length (first_containers p' productContainer)
                        | None => 0
                        end))).
Proof.
  unfold getLivePrices. destruct (Nat.ltb _ 2); [reflexivity|].
  rewrite (grainger_parse_nan now p (length (first_containers p productContainer)
             + match rd with
               | Some p' => length (first_containers p' productContainer)
               | None => 0
               end)) by lia.
  destruct (parseHTMLForPrices _ _ _); [|reflexivity].
  unfold getPricesWithPuppeteer. destruct rd as [p'|]; [|reflexivity].
  rewrite (grainger_extract_nan p' (length (first_containers p productContainer)
                                     + length (first_containers p' productContainer))) by lia.
  reflexivity.
Qed.

Lemma getLivePrices_short_query now q st rd n :
  String.length (trim q) < 2 -> getLivePrices now q st rd n = None.
Proof.
  intros H. unfold getLivePrices.
  replace (Nat.ltb (String.length (trim q)) 2) with true by (symmetry; apply Nat.ltb_lt; exact H).
  reflexivity.
Qed.

Lemma generic_parse_length now p s : length (Generic.parseHTML now p s) <= 10.
Proof.
  unfold Generic.parseHTML, Generic.normalizeResults. rewrite length_map.
  etransitivity; [apply List.filter_length_le|]. rewrite length_map.
  apply List.firstn_le_length.
Qed.

Lemma generic_rendered_length now a rp s ls :
  Generic.scrapeWithPuppeteer now a rp s = Some ls -> length ls <= 10.
Proof.
  unfold Generic.scrapeWithPuppeteer. destruct (Nat.leb _ a); [discriminate|].
  destruct rp as [p|]; [|intros [= <-]; cbn; lia].
  destruct (existsb _ _); intros [= <-]; [|cbn; lia].
  unfold Generic.normalizeResults. rewrite length_map.
  etransitivity; [apply List.filter_length_le|]. rewrite length_map.
  apply List.firstn_le_length.
Qed.

Lemma generic_source_length now s env : length (generic_source now s env) <= 10.
Proof.
  unfold generic_source, Generic.scrapeWithAxios.
  destruct (static_page env) as [p|].
  - destruct (Generic.parseHTML now p s) as [|x xs] eqn:E.
    + destruct (Generic.scrapeWithPuppeteer _ _ _ _) as [ls|] eqn:Hp; [|cbn; lia].
      rewrite length_map. exact (generic_rendered_length _ _ _ _ _ Hp).
    + cbn [length]. rewrite length_map.
      change (length (x :: xs) <= 10). rewrite <- E. apply generic_parse_length.
  - destruct (Generic.scrapeWithPuppeteer _ _ _ _) as [ls|] eqn:Hp; [|cbn; lia].
    rewrite length_map. exact (generic_rendered_length _ _ _ _ _ Hp).
Qed.

Lemma grainger_source_length now q z env :
  length (grainger_source now q (Int z) env) <= Z.to_nat ((z + 2) / 3).
Proof.
  unfold grainger_source, ceil_div. replace (z + 3 - 1)%Z with (z + 2)%Z by lia.
  destruct (getLivePrices _ _ _ _ _) as [r|] eqn:E; [|cbn; lia].
  exact (getLivePrices_length _ _ _ _ _ _ E).
Qed.

(** [Math.ceil(maxResults / 3)] is at most 0 for [maxResults <= 0], and no
    Grainger item is kept then *)
Lemma grainger_source_nonpos now q z env :
  (z <= 0)%Z -> grainger_source now q (Int z) env = [].
Proof.
  intros Hz. pose proof (grainger_source_length now q z env) as H.
  assert (Hd : ((z + 2) / 3 < 1)%Z).
  { apply Z.div_lt_upper_bound; lia. }
  destruct (grainger_source now q (Int z) env); [reflexivity|]. cbn in H. lia.
Qed.

Lemma dedup_from_length seen l : length (dedup_from seen l) <= length l.
Proof.
  revert seen. induction l as [|x l IH]; intros seen; cbn; [lia|].
  destruct (decide _); cbn; [specialize (IH seen) | specialize (IH ({[item_key x]} ∪ seen))]; lia.
Qed.

Lemma NoDup_firstn_map {B C} (f : B -> C) n (l : list B) :
  NoDup (map f l) -> NoDup (map f (firstn n l)).
Proof.
  intros H. rewrite <- firstn_map. rewrite <- (firstn_skipn n (map f l)) in H.
  apply NoDup_app in H as [H _]. exact H.
Qed.

Lemma generic_pair_length now mc msc :
  length (removeDuplicates (generic_source now Generic.mcmaster mc
                            ++ generic_source now Generic.mscdirect msc)) <= 20.
Proof.
  unfold removeDuplicates. etransitivity; [apply dedup_from_length|].
  rewrite length_app.
  pose proof (generic_source_length now Generic.mcmaster mc).
  pose proof (generic_source_length now Generic.mscdirect msc). lia.
Qed.

End ScraperBounds.

(** ** searchSingleQuery, getLivePrices, getDetailedPricing *)

Section SearchSizes.

Lemma ssq_bounds now q n mc msc gr :
  NoDup (map item_key (searchSingleQuery now q n mc msc gr))
  /\ (n = NaN -> searchSingleQuery now q n mc msc gr = [])
  /\ (forall z, n = Int z -> (0 <= z)%Z ->
        length (searchSingleQuery now q n mc msc gr)
        <= Nat.min (Z.to_nat z) (20 + Z.to_nat ((z + 2) / 3)))
  /\ (forall z, n = Int z -> (z < 0)%Z ->
        searchSingleQuery now q n mc msc gr
        = firstn (length (removeDuplicates (generic_source now Generic.mcmaster mc
                                            ++ generic_source now Generic.mscdirect msc))
                  - Z.to_nat (- z))
                 (removeDuplicates (generic_source now Generic.mcmaster mc
                                    ++ generic_source now Generic.mscdirect msc))).
Proof.
  split; [|split; [|split]].
  - unfold searchSingleQuery, slice0. destruct n as [|z]; [cbn; constructor|].
    destruct (Z.ltb z 0); apply NoDup_firstn_map; exact (proj1 (dedup_from_fresh ∅ _)).
  - intros ->. reflexivity.
  - intros z -> Hz. unfold searchSingleQuery, slice0.
    replace (Z.ltb z 0) with false by (symmetry; apply Z.ltb_ge; exact Hz).
    rewrite length_firstn. unfold removeDuplicates.
    pose proof (dedup_from_length ∅ (generic_source now Generic.mcmaster mc ++
                                     generic_source now Generic.mscdirect msc ++
                                     grainger_source now q (Int z) gr)) as Hd.
    rewrite !length_app in Hd.
    pose proof (generic_source_length now Generic.mcmaster mc).
    pose proof (generic_source_length now Generic.mscdirect msc).
    pose proof (grainger_source_length now q z gr). lia.
  - intros z -> Hz. unfold searchSingleQuery.
    rewrite (grainger_source_nonpos now q z gr) by lia. rewrite app_nil_r.
    unfold slice0. replace (Z.ltb z 0) with true by (symmetry; apply Z.ltb_lt; exact Hz).
    f_equal. lia.
Qed.

(** [searchSingleQuery(query, maxResults)] for every number [parseInt] can
    give: no two returned items share a dedup key; [NaN] returns nothing
    ([slice(0, NaN)]); a non-negative [maxResults] returns at most
    [maxResults] items and at most [20 + ceil(maxResults / 3)] (10 per
    generic supplier, [ceil(maxResults / 3)] from Grainger); a negative
    [maxResults = -k] takes nothing from Grainger and returns the
    deduplicated mcmaster and mscdirect items without the last [k]. *)
Theorem searchSingleQuery_size_and_keys now q n mc msc gr :
  NoDup (map item_key (searchSingleQuery now q n mc msc gr))
  /\ (n = NaN -> searchSingleQuery now q n mc msc gr = [])
  /\ (forall z, n = Int z -> (0 <= z)%Z ->
        length (searchSingleQuery now q n mc msc gr)
        <= Nat.min (Z.to_nat z) (20 + Z.to_nat ((z + 2) / 3)))
  /\ (forall z, n = Int z -> (z < 0)%Z ->
        searchSingleQuery now q n mc msc gr
        = firstn (length (removeDuplicates (generic_source now Generic.mcmaster mc
                                            ++ generic_source now Generic.mscdirect msc))
                  - Z.to_nat (- z))
                 (removeDuplicates (generic_source now Generic.mcmaster mc
                                    ++ generic_source now Generic.mscdirect msc))).
Proof. exact (ssq_bounds now q n mc msc gr). Qed.

Lemma searchSingleQuery_size_and_keys_witness :
  searchSingleQuery "2026-01-01T00:00:00.000Z" "6203 bearing" (Int (-1))
    Samples.env_mcmaster2 Samples.env_nothing Samples.env_grainger
  = firstn 1 (removeDuplicates (generic_source "2026-01-01T00:00:00.000Z" Generic.mcmaster
                                  Samples.env_mcmaster2
                                ++ generic_source "2026-01-01T00:00:00.000Z" Generic.mscdirect
                                  Samples.env_nothing))
  /\ length (searchSingleQuery "2026-01-01T00:00:00.000Z" "6203 bearing" (Int 10)
               Samples.env_mcmaster2 Samples.env_nothing Samples.env_grainger) = 3.
Proof.
  split; [|vm_compute; reflexivity].
  rewrite (proj2 (proj2 (proj2 (searchSingleQuery_size_and_keys "2026-01-01T00:00:00.000Z"
             "6203 bearing" (Int (-1)) Samples.env_mcmaster2 Samples.env_nothing
             Samples.env_grainger))) (-1)%Z eq_refl ltac:(lia)).
  vm_compute. reflexivity.
Defined.

(** [getLivePrices] rejects a query of fewer than 2 characters after
    trimming; a transport error of the static fetch makes it fail without
    trying the browser; an integer [maxResults] caps the number of items,
    on the static and on the rendered path (none for [maxResults <= 0]);
    and [NaN] ([parseInt] of a non-number) removes the cap: it returns what
    a cap equal to the number of product containers of the two pages
    returns. *)
Theorem getLivePrices_guards_and_bound now q st rd n :
  (String.length (trim q) < 2 -> Grainger.getLivePrices now q st rd n = None)
  /\ (st = None -> Grainger.getLivePrices now q st rd n = None)
  /\ (forall z r, n = Int z -> Grainger.getLivePrices now q st rd n = Some r ->
        length r <= Z.to_nat z)
  /\ (forall p, st = Some p -> n = NaN ->
        Grainger.getLivePrices now q st rd n
        = Grainger.getLivePrices now q st rd
            (Int (Z.of_nat (length (first_containers p Grainger.productContainer)
                            + match rd with
                              | Some p' => length (first_containers p' Grainger.productContainer)
                              | None => 0
                              end)))).
Proof.
  split; [|split; [|split]].
  - apply getLivePrices_short_query.
  - intros ->. unfold Grainger.getLivePrices. destruct (Nat.ltb _ 2); reflexivity.
  - intros z r ->. apply getLivePrices_length.
  - intros p -> ->. apply getLivePrices_nan.
Qed.

Lemma getLivePrices_guards_and_bound_witness :
  Grainger.getLivePrices "2026-01-01T00:00:00.000Z" " x " (Some Samples.empty_page)
    (Some Samples.grainger_rendered) (Int 5) = None
  /\ Grainger.getLivePrices "2026-01-01T00:00:00.000Z" "6203 bearing" None
       (Some Samples.grainger_rendered) (Int 5) = None
  /\ length [Listing (Samples.mk_listing "grainger" "6203-2Z" "Ball Bearing")] <= Z.to_nat 1
  /\ option_map (@length item)
       (Grainger.getLivePrices "2026-01-01T00:00:00.000Z" "6203 bearing"
          (Some Samples.grainger_page2) None NaN) = Some 2.
Proof.
  split; [|split; [|split]].
  - apply (proj1 (getLivePrices_guards_and_bound "2026-01-01T00:00:00.000Z" " x "
             (Some Samples.empty_page) (Some Samples.grainger_rendered) (Int 5))).
    vm_compute. lia.
  - apply (proj1 (proj2 (getLivePrices_guards_and_bound "2026-01-01T00:00:00.000Z"
             "6203 bearing" None (Some Samples.grainger_rendered) (Int 5)))). reflexivity.
  - destruct (Grainger.getLivePrices "2026-01-01T00:00:00.000Z" "6203 bearing"
                (Some Samples.grainger_page2) None (Int 1)) as [r|] eqn:E;
      [|vm_compute in E; discriminate].
    pose proof (proj1 (proj2 (proj2 (getLivePrices_guards_and_bound "2026-01-01T00:00:00.000Z"
             "6203 bearing" (Some Samples.grainger_page2) None (Int 1)))) 1%Z r eq_refl E) as H.
    cbn. lia.
  - rewrite (proj2 (proj2 (proj2 (getLivePrices_guards_and_bound "2026-01-01T00:00:00.000Z"
             "6203 bearing" (Some Samples.grainger_page2) None NaN))) Samples.grainger_page2
             eq_refl eq_refl).
    vm_compute. reflexivity.
Defined.

(** [getDetailedPricing(partNumber)] asks for a single result: it throws
    exactly when [getLivePrices(partNumber, 1)] throws, returns [null]
    exactly when that finds nothing, and otherwise returns its only item. *)
Theorem getDetailedPricing_cases now pn st rd :
  (Grainger.getDetailedPricing now pn st rd = None
     <-> Grainger.getLivePrices now pn st rd (Int 1) = None)
  /\ (Grainger.getDetailedPricing now pn st rd = Some None
     <-> Grainger.getLivePrices now pn st rd (Int 1) = Some [])
  /\ (forall x, Grainger.getDetailedPricing now pn st rd = Some (Some x)
     <-> Grainger.getLivePrices now pn st rd (Int 1) = Some [x]).
Proof.
  unfold Grainger.getDetailedPricing.
  destruct (Grainger.getLivePrices now pn st rd (Int 1)) as [[|y ys]|] eqn:E.
  - repeat split; intros H; try discriminate; try reflexivity.
  - pose proof (getLivePrices_length _ _ _ _ _ _ E) as Hl. cbn in Hl.
    destruct ys; [|cbn in Hl; lia].
    repeat split; intros; try discriminate; try congruence.
  - repeat split; intros H; try discriminate; try reflexivity.
Qed.

Lemma getDetailedPricing_cases_witness :
  Grainger.getDetailedPricing "2026-01-01T00:00:00.000Z" "6203-2Z" (Some Samples.empty_page)
    (Some Samples.grainger_rendered)
  = Some (Some (Raw (Samples.raw_record "6203-2Z" "Ball Bearing" "$12.34" EmptyString
                      "https://www.grainger.com/product/6203-2Z"))).
Proof.
  apply (proj2 (proj2 (getDetailedPricing_cases "2026-01-01T00:00:00.000Z" "6203-2Z"
           (Some Samples.empty_page) (Some Samples.grainger_rendered)))).
  vm_compute. reflexivity.
Defined.

End SearchSizes.

(** ** The smartSearch cascade and its callers *)

Section CascadeProps.
Import Enhancer Search Api.

Lemma try_suggestions_none_inv {A} (f : string -> list A) q ss log :
  try_suggestions f q ss = (None, log) -> log = ss /\ Forall (fun s => f s = []) ss.
Proof.
  revert log. induction ss as [|s ss IH]; intros log; cbn.
  - intros [= <-]. split; [reflexivity | constructor].
  - destruct (f s) eqn:E; [|discriminate].
    destruct (try_suggestions f q ss) as [r log'] eqn:E'. intros H. inversion H; subst.
    destruct (IH log' eq_refl) as [-> Hf]. split; [reflexivity | constructor; assumption].
Qed.

Lemma try_suggestions_some_inv {A} (f : string -> list A) q ss r log :
  try_suggestions f q ss = (Some r, log) ->
  exists s, In s ss /\ results r = f s /\ f s <> [] /\ sr_originalQuery r = q.
Proof.
  revert log. induction ss as [|s ss IH]; intros log; cbn; [discriminate|].
  destruct (f s) as [|y ys] eqn:E.
  - destruct (try_suggestions f q ss) as [r' log'] eqn:E'. intros H. inversion H; subst.
    destruct (IH log' eq_refl) as (s' & Hin & Hr & Hne & Ho).
    exists s'. split; [right; exact Hin | auto].
  - intros H. inversion H; subst. exists s. cbn. rewrite E.
    split; [left; reflexivity | split; [reflexivity | split; [discriminate | reflexivity]]].
Qed.

Lemma smartSearch_results_from {A} (f : string -> list A) hk ask q :
  (exists x, results (fst (smartSearch f hk ask q)) = f x)
  /\ sr_originalQuery (fst (smartSearch f hk ask q)) = q.
Proof.
  unfold smartSearch. cbv zeta.
  set (e := fst (enhanceSearchQuery hk ask q)).
  destruct (f (enhancedQuery e)) as [|y ys] eqn:E.
  - destruct (try_suggestions f q (firstn 2 (suggestions e))) as [[r|] log] eqn:T.
    + destruct (try_suggestions_some_inv _ _ _ _ _ T) as (s & _ & Hr & _ & Ho).
      split; [exists s; exact Hr | exact Ho].
    + split; [exists q; reflexivity | reflexivity].
  - split; [exists (enhancedQuery e); cbn; symmetry; exact E | reflexivity].
Qed.

Lemma smartSearch_empty_inv {A} (f : string -> list A) hk ask q :
  results (fst (smartSearch f hk ask q)) = [] ->
  sr_method (fst (smartSearch f hk ask q)) = original
  /\ sr_confidence (fst (smartSearch f hk ask q)) = 3
  /\ query (fst (smartSearch f hk ask q)) = q
  /\ sr_suggestions (fst (smartSearch f hk ask q))
     = Some (suggestions (fst (enhanceSearchQuery hk ask q)))
  /\ snd (smartSearch f hk ask q)
     = (enhancedQuery (fst (enhanceSearchQuery hk ask q))
        :: firstn 2 (suggestions (fst (enhanceSearchQuery hk ask q))) ++ [q])%list
  /\ Forall (fun x => f x = []) (snd (smartSearch f hk ask q)).
Proof.
  unfold smartSearch. cbv zeta.
  set (e := fst (enhanceSearchQuery hk ask q)).
  destruct (f (enhancedQuery e)) as [|y ys] eqn:E; [|cbn; discriminate].
  destruct (try_suggestions f q (firstn 2 (suggestions e))) as [[r|] log] eqn:T.
  - destruct (try_suggestions_some_inv _ _ _ _ _ T) as (s & _ & Hr & Hne & _).
    cbn. rewrite Hr. intros H. contradiction.
  - destruct (try_suggestions_none_inv _ _ _ _ T) as [-> Hf]. cbn. intros Hq.
    repeat split. constructor; [exact E|].
    apply Forall_app. split; [exact Hf | constructor; [exact Hq | constructor]].
Qed.

Lemma generateSuggestions_length q : 1 <= length (generateSuggestions q) <= 3.
Proof.
  unfold generateSuggestions. cbv zeta.
  destruct (flat_map _ partCategories) as [|x xs].
  - cbn. lia.
  - rewrite length_firstn. cbn [length]. lia.
Qed.

Lemma flat_map_nil {B C} (g : B -> list C) (l : list B) :
  Forall (fun x => g x = []) l -> flat_map g l = [].
Proof. induction 1 as [|x l Hx _ IH]; cbn; [reflexivity|]. rewrite Hx, IH. reflexivity. Qed.

(** [generateSuggestions] always returns one to three suggestions; a
    query that contains none of the category stems ("bearing", "seal",
    "fastener", "electrica", "hydrauli", "pneumati") gets the first three
    defaults. *)
Theorem generateSuggestions_count_and_default q :
  1 <= length (generateSuggestions q) <= 3
  /\ (Forall (fun cp => includes (toLowerCase q)
                          (substring 0 (String.length (fst cp) - 1) (fst cp)) = false)
             partCategories ->
      generateSuggestions q = ["6203 bearing"; "hydraulic seal"; "M8 bolt"]).
Proof.
  split; [apply generateSuggestions_length|].
  intros H. unfold generateSuggestions. cbv zeta.
  rewrite flat_map_nil; [reflexivity|].
  eapply Forall_impl; [exact H|]. intros [c ps] Hc. cbn in Hc |- *. rewrite Hc. reflexivity.
Qed.

Lemma generateSuggestions_count_and_default_witness :
  generateSuggestions "widget" = ["6203 bearing"; "hydraulic seal"; "M8 bolt"].
Proof.
  apply (proj2 (generateSuggestions_count_and_default "widget")).
  repeat constructor.
Defined.

(** An empty [smartSearch] result always comes from the last stage: its
    method is [original], its confidence 0.3, its query the original
    one, it carries the enhancer's suggestions, and the search function
    found nothing for the enhanced query, for the first two suggestions
    and for the original query, tried in this order. *)
Theorem smartSearch_empty_result {A} (f : string -> list A) hk ask q :
  results (fst (smartSearch f hk ask q)) = [] ->
  sr_method (fst (smartSearch f hk ask q)) = original
  /\ sr_confidence (fst (smartSearch f hk ask q)) = 3
  /\ query (fst (smartSearch f hk ask q)) = q
  /\ sr_suggestions (fst (smartSearch f hk ask q))
     = Some (suggestions (fst (enhanceSearchQuery hk ask q)))
  /\ snd (smartSearch f hk ask q)
     = (enhancedQuery (fst (enhanceSearchQuery hk ask q))
        :: firstn 2 (suggestions (fst (enhanceSearchQuery hk ask q))) ++ [q])%list
  /\ Forall (fun x => f x = []) (snd (smartSearch f hk ask q)).
Proof. exact (smartSearch_empty_inv f hk ask q). Qed.

Lemma smartSearch_empty_result_witness :
  sr_method (fst (smartSearch (fun _ : string => @nil nat) false (fun _ => None) "widget"))
  = original.
Proof.
  apply (smartSearch_empty_result (fun _ : string => @nil nat) false (fun _ => None) "widget").
  reflexivity.
Defined.

(** Without an LLM key, when no rule scores above 0.7 and nothing is found,
    [smartSearch] searches the original query twice, first (as the
    passed-through enhanced query) and last, with one or two suggestions of
    [generateSuggestions] in between. *)
Theorem smartSearch_no_key_searches_original_twice {A} (f : string -> list A) ask q :
  confidence (ruleBasedEnhancement q) <= 7 ->
  f q = [] -> Forall (fun s => f s = []) (firstn 2 (generateSuggestions q)) ->
  snd (smartSearch f false ask q) = (q :: firstn 2 (generateSuggestions q) ++ [q])%list
  /\ 3 <= length (snd (smartSearch f false ask q)) <= 4
  /\ results (fst (smartSearch f false ask q)) = [].
Proof.
  intros Hc Hq Hs.
  assert (He : fst (enhanceSearchQuery false ask q)
               = {| originalQuery := q; enhancedQuery := q;
                    suggestions := generateSuggestions q; confidence := 3;
                    emethod := passthrough |}).
  { unfold enhanceSearchQuery.
    replace (Nat.ltb 7 (confidence (ruleBasedEnhancement q))) with false
      by (symmetry; apply Nat.ltb_ge; exact Hc).
    reflexivity. }
  unfold smartSearch. rewrite He. cbn [enhancedQuery suggestions].
  rewrite Hq, (try_suggestions_none f q _ Hs). cbn [fst snd results].
  split; [reflexivity|]. split; [|reflexivity].
  pose proof (generateSuggestions_length q).
  cbn [length]. rewrite length_app, length_firstn. cbn [length]. lia.
Qed.

Lemma smartSearch_no_key_searches_original_twice_witness :
  snd (smartSearch (fun _ : string => @nil nat) false (fun _ => None) "widget")
  = ["widget"; "6203 bearing"; "hydraulic seal"; "widget"]
  /\ 3 <= 4 <= 4.
Proof.
  destruct (smartSearch_no_key_searches_original_twice (fun _ : string => @nil nat)
              (fun _ => None) "widget") as [H1 [H2 _]].
  - vm_compute. lia.
  - reflexivity.
  - repeat constructor.
  - split; [exact H1 | lia].
Defined.

Lemma searchFn_of_bounds now w n x :
  NoDup (map item_key (searchFn_of now w n x))
  /\ (n = NaN -> searchFn_of now w n x = [])
  /\ (forall z, n = Int z -> (0 <= z)%Z ->
        length (searchFn_of now w n x) <= Nat.min (Z.to_nat z) (20 + Z.to_nat ((z + 2) / 3)))
  /\ (forall z, n = Int z -> (z < 0)%Z ->
        (Z.of_nat (length (searchFn_of now w n x)) <= Z.max 0 (20 + z))%Z).
Proof.
  unfold searchFn_of. destruct (w x) as [[mc msc] gr].
  destruct (ssq_bounds now x n mc msc gr) as (H1 & H2 & H3 & H4).
  split; [exact H1|]. split; [exact H2|]. split; [exact H3|].
  intros z Hn Hz. rewrite (H4 z Hn Hz), length_firstn.
  pose proof (generic_pair_length now mc msc). lia.
Qed.

(** [searchAllSuppliers(query, maxResults)], whichever stage of the
    cascade produced its items: no two of them share a dedup key; [NaN]
    gives nothing; a non-negative [maxResults] gives at most [maxResults]
    items (and at most [20 + ceil(maxResults / 3)]); a negative
    [maxResults = -k] gives at most [max(0, 20 - k)] items. *)
Theorem searchAllSuppliers_size_and_keys now w hk ask q n :
  NoDup (map item_key (searchAllSuppliers now w hk ask q n))
  /\ (n = NaN -> searchAllSuppliers now w hk ask q n = [])
  /\ (forall z, n = Int z -> (0 <= z)%Z ->
        length (searchAllSuppliers now w hk ask q n)
        <= Nat.min (Z.to_nat z) (20 + Z.to_nat ((z + 2) / 3)))
  /\ (forall z, n = Int z -> (z < 0)%Z ->
        (Z.of_nat (length (searchAllSuppliers now w hk ask q n)) <= Z.max 0 (20 + z))%Z).
Proof.
  unfold searchAllSuppliers.
  destruct (proj1 (smartSearch_results_from (searchFn_of now w n) hk ask q)) as [x ->].
  apply searchFn_of_bounds.
Qed.

Lemma searchAllSuppliers_size_and_keys_witness :
  (Z.of_nat (length (searchAllSuppliers "2026-01-01T00:00:00.000Z"
                       (fun _ => (Samples.env_mcmaster2, Samples.env_nothing, Samples.env_nothing))
                       false (fun _ => None) "6203 bearing" (Int (-1))))
   <= Z.max 0 (20 + -1))%Z
  /\ searchAllSuppliers "2026-01-01T00:00:00.000Z"
       (fun _ => (Samples.env_mcmaster2, Samples.env_nothing, Samples.env_grainger))
       false (fun _ => None) "6203 bearing" NaN = [].
Proof.
  split.
  - exact (proj2 (proj2 (proj2 (searchAllSuppliers_size_and_keys "2026-01-01T00:00:00.000Z"
             (fun _ => (Samples.env_mcmaster2, Samples.env_nothing, Samples.env_nothing))
             false (fun _ => None) "6203 bearing" (Int (-1))))) (-1)%Z eq_refl ltac:(lia)).
  - exact (proj1 (proj2 (searchAllSuppliers_size_and_keys "2026-01-01T00:00:00.000Z"
             (fun _ => (Samples.env_mcmaster2, Samples.env_nothing, Samples.env_grainger))
             false (fun _ => None) "6203 bearing" NaN)) eq_refl).
Defined.

End CascadeProps.

(** ** The HTTP routes *)

Section Routes.
Import Enhancer Search Api.

(** [GET /api/search]: a query shorter than 2 characters after trimming
    (or none) gets 400 and nothing is searched.  A 404 always comes from
    the last stage of the cascade: method [original], the original query,
    and the enhancer's suggestions (the route's default list is never
    used), after every attempted query found nothing.  A 200 reports
    [resultCount] equal to the number of results, at least 1, with
    distinct dedup keys; for an integer [limit] [parseInt(limit)] of 0 or
    more, at most [limit] of them, for a negative one [-k] at most
    [20 - k].  A [limit] that [parseInt] turns into [NaN] makes every
    search return nothing, so a valid query then always gets 404. *)
Theorem api_search_responses now w hk ask q limit :
  api_search now w hk ask None limit = (S400, [])
  /\ (String.length (trim q) < 2 -> api_search now w hk ask (Some q) limit = (S400, []))
  /\ (forall qq oq m sg, fst (api_search now w hk ask (Some q) limit) = S404 qq oq m sg ->
        m = original /\ qq = q /\ oq = q
        /\ sg = suggestions (fst (enhanceSearchQuery hk ask q))
        /\ Forall (fun x => searchFn_of now w limit x = [])
                  (snd (api_search now w hk ask (Some q) limit)))
  /\ (forall rs qq oq m c cnt sup,
        fst (api_search now w hk ask (Some q) limit) = S200 rs qq oq m c cnt sup ->
        cnt = length rs /\ 1 <= cnt /\ NoDup (map item_key rs)
        /\ oq = q /\ sup = suppliersSearched
        /\ (forall z, limit = Int z -> (0 <= z)%Z -> cnt <= Z.to_nat z)
        /\ (forall z, limit = Int z -> (z < 0)%Z -> (Z.of_nat cnt <= 20 + z)%Z))
  /\ (limit = NaN -> 2 <= String.length (trim q) ->
        exists qq oq m sg, fst (api_search now w hk ask (Some q) limit) = S404 qq oq m sg).
Proof.
  split; [reflexivity|]. split; [|split; [|split]].
  - intros H. unfold api_search.
    replace (Nat.ltb (String.length (trim q)) 2) with true
      by (symmetry; apply Nat.ltb_lt; exact H).
    rewrite orb_true_r. reflexivity.
  - intros qq oq m sg. unfold api_search.
    destruct (negb (truthy q) || _); [discriminate|].
    pose proof (smartSearch_empty_inv (searchFn_of now w limit) hk ask q) as Hinv.
    pose proof (proj2 (smartSearch_results_from (searchFn_of now w limit) hk ask q)) as Ho.
    destruct (smartSearch (searchFn_of now w limit) hk ask q) as [sr log].
    cbn [fst snd] in Hinv, Ho |- *.
    destruct (results sr) as [|r rs] eqn:R; [|discriminate].
    destruct (Hinv eq_refl) as (Hm & _ & Hq & Hs & _ & Hf).
    rewrite Hs. intros H. injection H as <- <- <- <-. repeat split; assumption.
  - intros rs qq oq m c cnt sup. unfold api_search.
    destruct (negb (truthy q) || _); [discriminate|].
    destruct (smartSearch_results_from (searchFn_of now w limit) hk ask q) as [[x Hx] Ho].
    destruct (smartSearch (searchFn_of now w limit) hk ask q) as [sr log].
    cbn [fst snd] in Hx, Ho |- *.
    destruct (results sr) as [|r rs'] eqn:R; [discriminate|].
    intros H. inversion H; subst.
    destruct (searchFn_of_bounds now w limit x) as (Hnd & _ & Hpos & Hneg).
    rewrite <- Hx in Hnd, Hpos, Hneg.
    split; [reflexivity|]. split; [cbn; lia|]. split; [exact Hnd|].
    split; [reflexivity|]. split; [reflexivity|]. split.
    + intros z Hl Hz. specialize (Hpos z Hl Hz). cbn [length] in Hpos |- *. lia.
    + intros z Hl Hz. specialize (Hneg z Hl Hz). cbn [length] in Hneg |- *. lia.
  - intros Hn Hl. unfold api_search.
    destruct q as [|a q']; [cbn in Hl; lia|].
    replace (negb (truthy (String a q')) || Nat.ltb (String.length (trim (String a q'))) 2)
      with false by (cbn [truthy negb orb]; symmetry; apply Nat.ltb_ge; exact Hl).
    destruct (smartSearch_results_from (searchFn_of now w limit) hk ask (String a q'))
      as [[x Hx] _].
    destruct (smartSearch (searchFn_of now w limit) hk ask (String a q')) as [sr log].
    cbn [fst snd] in Hx |- *.
    rewrite Hx, (proj1 (proj2 (searchFn_of_bounds now w limit x)) Hn). eauto.
Qed.

Lemma api_search_responses_witness :
  api_search "2026-01-01T00:00:00.000Z" (fun _ => (Samples.env_nothing, Samples.env_nothing,
                                                  Samples.env_nothing))
             false (fun _ => None) (Some " x") (Int 10) = (S400, [])
  /\ exists qq oq m sg,
       fst (api_search "2026-01-01T00:00:00.000Z"
              (fun _ => (Samples.env_mcmaster2, Samples.env_nothing, Samples.env_grainger))
              false (fun _ => None) (Some "6203 bearing") NaN) = S404 qq oq m sg.
Proof.
  split.
  - apply (proj1 (proj2 (api_search_responses "2026-01-01T00:00:00.000Z"
             (fun _ => (Samples.env_nothing, Samples.env_nothing, Samples.env_nothing))
             false (fun _ => None) " x" (Int 10)))).
    vm_compute. lia.
  - apply (proj2 (proj2 (proj2 (proj2 (api_search_responses "2026-01-01T00:00:00.000Z"
             (fun _ => (Samples.env_mcmaster2, Samples.env_nothing, Samples.env_grainger))
             false (fun _ => None) "6203 bearing" NaN))))).
    + reflexivity.
    + vm_compute. lia.
Defined.

(** [GET /api/test-grainger]: a missing or empty query gets 400, but a
    non-empty query shorter than 2 characters after trimming (e.g. one
    space) passes the route's check and is rejected by [getLivePrices],
    so it gets 500.  A 200 echoes the query and, for an integer [limit],
    reports at most [limit] results; a [limit] that [parseInt] turns into
    [NaN] caps nothing: the answer is the one for a limit equal to the
    number of product containers of the fetched pages. *)
Theorem api_test_grainger_responses now q limit st rd :
  api_test_grainger now None limit st rd = G400
  /\ api_test_grainger now (Some EmptyString) limit st rd = G400
  /\ (q <> EmptyString -> String.length (trim q) < 2 ->
      api_test_grainger now (Some q) limit st rd = G500)
  /\ (forall rs qq cnt, api_test_grainger now (Some q) limit st rd = G200 rs qq cnt ->
        qq = q /\ cnt = length rs /\ (forall z, limit = Int z -> cnt <= Z.to_nat z))
  /\ (forall p, st = Some p -> limit = NaN ->
        api_test_grainger now (Some q) limit st rd
        = api_test_grainger now (Some q)
            (Int (Z.of_nat (length (first_containers p Grainger.productContainer)
                            + match rd with
                              | Some p' => length (first_containers p' Grainger.productContainer)
                              | None => 0
                              end))) st rd).
Proof.
  split; [reflexivity|]. split; [reflexivity|]. split; [|split].
  - intros Hne Hl. unfold api_test_grainger.
    destruct q as [|a q']; [congruence|]. cbn [truthy negb].
    rewrite (getLivePrices_short_query now (String a q') st rd limit Hl).
    reflexivity.
  - intros rs qq cnt. unfold api_test_grainger.
    destruct (negb (truthy q)); [discriminate|].
    destruct (Grainger.getLivePrices now q st rd limit) as [r|] eqn:E; [|discriminate].
    intros H. inversion H; subst. split; [reflexivity|]. split; [reflexivity|].
    intros z ->. exact (getLivePrices_length _ _ _ _ _ _ E).
  - intros p -> ->. unfold api_test_grainger. rewrite getLivePrices_nan. reflexivity.
Qed.

Lemma api_test_grainger_responses_witness :
  api_test_grainger "2026-01-01T00:00:00.000Z" (Some " ") (Int 5) (Some Samples.empty_page)
    (Some Samples.grainger_rendered) = G500
  /\ match api_test_grainger "2026-01-01T00:00:00.000Z" (Some "6203 bearing") NaN
             (Some Samples.grainger_page2) None with
     | G200 _ _ cnt => cnt = 2
     | _ => False
     end.
Proof.
  split.
  - apply (proj1 (proj2 (proj2 (api_test_grainger_responses "2026-01-01T00:00:00.000Z" " "
             (Int 5) (Some Samples.empty_page) (Some Samples.grainger_rendered))))).
    + discriminate.
    + vm_compute. lia.
  - rewrite (proj2 (proj2 (proj2 (proj2 (api_test_grainger_responses "2026-01-01T00:00:00.000Z"
             "6203 bearing" NaN (Some Samples.grainger_page2) None)))) Samples.grainger_page2
             eq_refl eq_refl).
    vm_compute. reflexivity.
Defined.



End Routes.

(** ** Listings of the scrapers *)

Section ListingProps.

Lemma generic_scraped_contact_supplier now cs s l :
  In l (Generic.normalizeResults now (List.filter Generic.keep (map (Generic.scrape s) cs)) s) ->
  availability l = "Contact supplier" /\ inStock l = true.
Proof.
  unfold Generic.normalizeResults. intros H. apply in_map_listing_inv in H as (r & Hr & ->).
  apply filter_In in Hr as [Hr _]. apply in_map_iff in Hr as (c & <- & _).
  split; reflexivity.
Qed.

(** No supplier of [SUPPLIERS] configures an availability selector, so
    every mcmaster or mscdirect listing, from the static or the rendered
    fetch, reads availability "Contact supplier" and [inStock] true,
    whatever the page shows. *)
Theorem generic_listings_contact_supplier :
  (forall now p s l, In l (Generic.parseHTML now p s) ->
     availability l = "Contact supplier" /\ inStock l = true)
  /\ (forall now a rp s ls l, Generic.scrapeWithPuppeteer now a rp s = Some ls -> In l ls ->
     availability l = "Contact supplier" /\ inStock l = true)
  /\ (forall now s env l, In (Listing l) (generic_source now s env) ->
     availability l = "Contact supplier" /\ inStock l = true).
Proof.
  assert (Hp : forall now p s l, In l (Generic.parseHTML now p s) ->
                 availability l = "Contact supplier" /\ inStock l = true).
  { intros now p s l H. exact (generic_scraped_contact_supplier _ _ _ _ H). }
  assert (Hr : forall now a rp s ls l, Generic.scrapeWithPuppeteer now a rp s = Some ls ->
                 In l ls -> availability l = "Contact supplier" /\ inStock l = true).
  { intros now a rp s ls l H Hl. unfold Generic.scrapeWithPuppeteer in H.
    destruct (Nat.leb _ a); [discriminate|].
    destruct rp as [p|]; [|inversion H; subst; destruct Hl].
    destruct (existsb _ _); inversion H; subst; [|destruct Hl].
    exact (generic_scraped_contact_supplier _ _ _ _ Hl). }
  split; [exact Hp|]. split; [exact Hr|].
  intros now s env l Hin. unfold generic_source in Hin.
  assert (Hl : forall ls, In (Listing l) (map Listing ls) -> In l ls).
  { intros ls H. apply in_map_iff in H as (l' & Heq & H'). inversion Heq; subst; exact H'. }
  destruct (Generic.scrapeWithAxios now (static_page env) s) as [|x xs] eqn:Ha.
  - destruct (Generic.scrapeWithPuppeteer _ _ _ _) as [r|] eqn:E; [|destruct Hin].
    exact (Hr _ _ _ _ _ _ E (Hl _ Hin)).
  - apply Hl in Hin. unfold Generic.scrapeWithAxios in Ha.
    destruct (static_page env) as [p|]; [|discriminate].
    rewrite <- Ha in Hin. exact (Hp _ _ _ _ Hin).
Qed.

Lemma generic_listings_contact_supplier_witness :
  exists l, In l (Generic.parseHTML "2026-01-01T00:00:00.000Z" Samples.mcmaster_page
                    Generic.mcmaster)
            /\ availability l = "Contact supplier" /\ inStock l = true.
Proof.
  eexists. split; [vm_compute; left; reflexivity|].
  apply (proj1 generic_listings_contact_supplier "2026-01-01T00:00:00.000Z"
           Samples.mcmaster_page Generic.mcmaster).
  vm_compute. left. reflexivity.
Defined.

(** The rendered fetch of [ProductScraper] waits for any of the supplier's
    container selectors but extracts with the first one only: when that
    one matches nothing on the rendered page, it returns no listings, even
    if a later selector matches (and the static parser would use it). *)
Theorem scrapeWithPuppeteer_first_selector_only now a p s :
  a < Generic.maxConcurrentSessions ->
  query_all p (hd EmptyString (Generic.productContainer s)) = [] ->
  Generic.scrapeWithPuppeteer now a (Some p) s = Some [].
Proof.
  intros Ha Hq. unfold Generic.scrapeWithPuppeteer.
  replace (Nat.leb Generic.maxConcurrentSessions a) with false
    by (symmetry; apply Nat.leb_gt; exact Ha).
  rewrite Hq. destruct (existsb _ _); reflexivity.
Qed.

Lemma scrapeWithPuppeteer_first_selector_only_witness :
  Generic.scrapeWithPuppeteer "2026-01-01T00:00:00.000Z" 0 (Some Samples.mcmaster_page_rows)
    Generic.mcmaster = Some []
  /\ length (Generic.parseHTML "2026-01-01T00:00:00.000Z" Samples.mcmaster_page_rows
               Generic.mcmaster) = 1.
Proof.
  split.
  - apply scrapeWithPuppeteer_first_selector_only;
      [unfold Generic.maxConcurrentSessions; lia | vm_compute; reflexivity].
  - vm_compute. reflexivity.
Defined.

(** Grainger's static path builds each listing from its own product tile:
    part number and name are read from that tile, and [productUrl] is the
    base URL followed by the tile link's [href] attribute, or [""] when the
    tile has no link; an [href] that is already absolute gets the base URL
    prepended a second time. *)
Theorem grainger_static_productUrl now p n l :
  In l (Grainger.parseHTMLForPrices now p n) ->
  exists c, In c (first_containers p Grainger.productContainer)
    /\ partNumber l = getTextBySelectors c Grainger.partNumber_sels
    /\ name l = getTextBySelectors c Grainger.productName_sels
    /\ ((link_attr c = EmptyString /\ productUrl l = EmptyString)
        \/ (link_attr c <> EmptyString
            /\ productUrl l = (Grainger.baseUrl ++ link_attr c)%string)).
Proof.
  unfold Grainger.parseHTMLForPrices, Grainger.normalizeResults. intros H.
  apply in_map_listing_inv in H as (r & Hr & ->). cbn [productUrl partNumber name].
  apply filter_In in Hr as [Hr _]. apply in_map_iff in Hr as (c & <- & Hc).
  exists c. split; [exact (each_until_In _ _ _ _ Hc)|].
  cbn [r_productUrl r_partNumber r_productName Grainger.scrape].
  split; [reflexivity|]. split; [reflexivity|].
  destruct (link_attr c) as [|a t] eqn:E; [left; split; reflexivity|].
  right. split; [discriminate | reflexivity].
Qed.

Lemma grainger_static_productUrl_witness :
  exists l, In l (Grainger.parseHTMLForPrices "2026-01-01T00:00:00.000Z"
                    Samples.grainger_page_abs (Int 5))
            /\ productUrl l = "https://www.grainger.comhttps://www.grainger.com/product/6203-2Z".
Proof.
  eexists. split; [vm_compute; left; reflexivity|].
  destruct (grainger_static_productUrl "2026-01-01T00:00:00.000Z" Samples.grainger_page_abs
              (Int 5) _ ltac:(vm_compute; left; reflexivity))
    as (c & Hc & _ & _ & [[Hn H] | [Hn H]]).
  - vm_compute in H. discriminate.
  - vm_compute. reflexivity.
Defined.

End ListingProps.

(** ** Confidence of the rule-based enhancement *)

Section RuleConfidence.
Import JS Regex Enhancer.

Lemma pattern1_cases nq st : pattern1 nq st = st \/ rs_conf (pattern1 nq st) = 9.
Proof. unfold pattern1. destruct (exec p_partNumber nq); [right; reflexivity | left; reflexivity]. Qed.

Lemma pattern2_loop_cases nq ms st :
  pattern2_loop nq ms st = st \/ rs_conf (pattern2_loop nq ms st) = 8.
Proof.
  induction ms as [|[g sp] ms IH]; cbn; [left; reflexivity|].
  destruct (includes nq g && Nat.leb (split_space_count nq) 2); [right; reflexivity | exact IH].
Qed.

Lemma pattern3_loop_cases nq ms st :
  pattern3_loop nq ms st = st \/ rs_conf (pattern3_loop nq ms st) = 7.
Proof.
  induction ms as [|[e ps] ms IH]; cbn; [left; reflexivity|].
  destruct (includes nq e); [right; reflexivity | exact IH].
Qed.

Lemma pattern4_cases nq st : pattern4 nq st = st \/ rs_conf (pattern4 nq st) = 8.
Proof.
  unfold pattern4. destruct (exec p_size nq); [|left; reflexivity].
  destruct (includes nq "bearing"); [right; reflexivity | left; reflexivity].
Qed.

(** The rule-based enhancement only ever reports a confidence of 0.5,
    0.7, 0.8 or 0.9 (in tenths: 5, 7, 8, 9); it reports 0.5 exactly when no
    check applied, and then the enhanced query is the lower-cased, trimmed
    query and there are no suggestions. *)
Theorem ruleBasedEnhancement_confidence_values q :
  let e := ruleBasedEnhancement q in
  (confidence e = 5 \/ confidence e = 7 \/ confidence e = 8 \/ confidence e = 9)
  /\ (confidence e = 5 ->
        enhancedQuery e = trim (toLowerCase q) /\ suggestions e = []).
Proof.
  unfold ruleBasedEnhancement. cbv zeta. cbn [confidence enhancedQuery suggestions].
  set (nq := trim (toLowerCase q)).
  set (s1 := pattern1 nq (RS nq 5 [])).
  set (s2 := pattern2 nq s1). set (s3 := pattern3 nq s2).
  destruct (pattern4_cases nq s3) as [E4|E4]; rewrite E4;
    [|split; [lia | intros H; exfalso; lia]].
  destruct (pattern3_loop_cases nq equipmentMappings s2) as [E3|E3];
    unfold s3, pattern3; rewrite E3; [|split; [lia | intros H; exfalso; lia]].
  destruct (pattern2_loop_cases nq categoryMappings s1) as [E2|E2];
    unfold s2, pattern2; rewrite E2; [|split; [lia | intros H; exfalso; lia]].
  destruct (pattern1_cases nq (RS nq 5 [])) as [E1|E1];
    unfold s1; rewrite E1; [|split; [lia | intros H; exfalso; lia]].
  cbn. split; [left; reflexivity | intros _; split; reflexivity].
Qed.

Lemma ruleBasedEnhancement_confidence_values_witness :
  confidence (ruleBasedEnhancement " Widget ") = 5
  /\ enhancedQuery (ruleBasedEnhancement " Widget ") = "widget".
Proof.
  assert (H5 : confidence (ruleBasedEnhancement " Widget ") = 5) by (vm_compute; reflexivity).
  split; [exact H5|].
  rewrite (proj1 (proj2 (ruleBasedEnhancement_confidence_values " Widget ") H5)).
  vm_compute. reflexivity.
Defined.

End RuleConfidence.

(** ** Sign of the parsed prices *)

Section PriceSign.
Import Price.

Lemma digit_val_nonneg a : (0 <= digit_val a)%Z.
Proof. unfold digit_val. lia. Qed.

Lemma digits_prefix_nonneg l acc :
  (0 <= acc)%Z -> (0 <= fst (digits_prefix l acc))%Z.
Proof.
  revert acc. induction l as [|a l IH]; intros acc H; cbn; [exact H|].
  destruct (JS.is_digit a); [apply IH; pose proof (digit_val_nonneg a); lia | exact H].
Qed.

Lemma parseFloat_cents_nonneg t : (0 <= parseFloat_cents t)%Z.
Proof.
  unfold parseFloat_cents.
  set (l := List.filter _ _).
  pose proof (digits_prefix_nonneg l 0 ltac:(lia)) as H.
  destruct (digits_prefix l 0) as [ip rest]. cbn [fst] in H.
  repeat match goal with
         | |- context [match ?x with _ => _ end] => destruct x
         end;
  repeat match goal with
         | |- context [digit_val ?d] =>
             let z := fresh "z" in
             pose proof (digit_val_nonneg d); set (z := digit_val d) in *; clearbody z
         end; lia.
Qed.

Lemma first_match_nonneg ps s p : first_match ps s = Some p -> (0 <= p)%Z.
Proof.
  induction ps as [|r ps IH]; cbn; [discriminate|].
  unfold price_of_match. destruct (Regex.exec r s); [|exact IH].
  destruct (Regex.group s _ 1); [|discriminate].
  intros H. inversion H. apply parseFloat_cents_nonneg.
Qed.

(** Neither price parser ever returns a negative price: none of the
    patterns reads a minus sign, so a text "-$5.00" parses as 5.00. *)
Theorem parsePrice_never_negative :
  (forall s p, parsePrice s = Some p -> (0 <= p)%Z)
  /\ (forall s p, parsePrice_generic s = Some p -> (0 <= p)%Z)
  /\ parsePrice "-$5.00" = Some 500%Z
  /\ parsePrice_generic "-5.00" = Some 500%Z.
Proof.
  split; [|split; [|split; vm_compute; reflexivity]].
  - intros s p. unfold parsePrice. destruct (JS.truthy s); [|discriminate].
    apply first_match_nonneg.
  - intros s p. unfold parsePrice_generic. destruct (JS.truthy s); [|discriminate].
    intros H. apply (first_match_nonneg [p_generic] s).
    cbn. destruct (price_of_match p_generic s) as [v|]; [|discriminate].
    destruct v; exact H.
Qed.

Lemma parsePrice_never_negative_witness :
  parsePrice "-$5.00" = Some 500%Z /\ (0 <= 500)%Z.
Proof.
  split; [vm_compute; reflexivity|].
  apply ((proj1 parsePrice_never_negative) "-$5.00"). vm_compute. reflexivity.
Defined.

End PriceSign.

(** ** Reading the LLM response *)

Section LLMResponse.
Import JS Enhancer LLMParse.

Lemma drop_ws_idem l : drop_ws (drop_ws l) = drop_ws l.
Proof.
  induction l as [|a l IH]; cbn; [reflexivity|].
  destruct (is_ws a) eqn:E; [exact IH | cbn; rewrite E; reflexivity].
Qed.

Lemma drop_ws_head l :
  match drop_ws l with [] => True | a :: _ => is_ws a = false end.
Proof.
  induction l as [|a l IH]; cbn; [exact I|].
  destruct (is_ws a) eqn:E; [exact IH | exact E].
Qed.

Lemma drop_ws_split l : exists p : list ascii, l = (p ++ drop_ws l)%list.
Proof.
  induction l as [|a l IH]; cbn; [exists []; reflexivity|].
  destruct (is_ws a); [destruct IH as [p Hp]; exists (a :: p); cbn; f_equal; exact Hp
                      | exists []; reflexivity].
Qed.

Lemma drop_ws_nonws l :
  match l with [] => True | a :: _ => is_ws a = false end -> drop_ws l = l.
Proof. destruct l as [|a l]; cbn; [reflexivity|]. intros ->. reflexivity. Qed.

Lemma trim_idem s : trim (trim s) = trim s.
Proof.
  unfold trim. rewrite list_ascii_of_string_of_list_ascii. f_equal.
  pose proof (drop_ws_head (list_ascii_of_string s)) as Hh.
  generalize dependent (drop_ws (list_ascii_of_string s)). intros L Hh.
  destruct (drop_ws_split (rev L)) as [p Hp].
  assert (HL : L = (rev (drop_ws (rev L)) ++ rev p)%list).
  { rewrite <- rev_app_distr, <- Hp, rev_involutive. reflexivity. }
  assert (H : drop_ws (rev (drop_ws (rev L))) = rev (drop_ws (rev L))).
  { apply drop_ws_nonws. rewrite HL in Hh.
    destruct (rev (drop_ws (rev L))) as [|a t]; [exact I | exact Hh]. }
  rewrite H, rev_involutive, drop_ws_idem. reflexivity.
Qed.

Lemma find_none_all {A} (f : A -> bool) l :
  (forall x, In x l -> f x = false) -> find f l = None.
Proof.
  induction l as [|a l IH]; intros H; cbn; [reflexivity|].
  rewrite (H a (or_introl eq_refl)). apply IH. intros x Hx. exact (H x (or_intror Hx)).
Qed.

(** When [JSON.parse] reads the response as a value other than [null],
    the method is "llm", the reasoning is the value's [reasoning] key as
    it is, and the enhanced query, the alternatives and the confidence are
    the value's [enhancedQuery], [alternatives] and [confidence] keys when
    these are truthy, else the original query, [[]] and 0.6 (so a reported
    confidence of 0 becomes 0.6); a value that is not an object (a number,
    a string, ...) gives all three defaults.  A response that does not parse, or parses to [null],
    goes to the plain-text fallback. *)
Theorem parseLLMResponse_json_defaults parse q resp :
  (forall v, parse resp = Some v -> v <> JNull ->
     let r := parseLLMResponse parse q resp in
     lr_method r = llm /\ lr_originalQuery r = q
     /\ (truthy_json (prop v "enhancedQuery") = false -> lr_enhancedQuery r = JStr q)
     /\ (truthy_json (prop v "alternatives") = false -> lr_suggestions r = JArr [])
     /\ (truthy_json (prop v "confidence") = false -> lr_confidence r = JNum (6 # 10))
     /\ (forall j, prop v "enhancedQuery" = Some j -> truthy_json (Some j) = true ->
           lr_enhancedQuery r = j)
     /\ (forall j, prop v "alternatives" = Some j -> truthy_json (Some j) = true ->
           lr_suggestions r = j)
     /\ (forall j, prop v "confidence" = Some j -> truthy_json (Some j) = true ->
           lr_confidence r = j)
     /\ lr_reasoning r = prop v "reasoning")
  /\ (forall v, parse resp = Some v ->
        match v with JNull | JObj _ => False | _ => True end ->
        parseLLMResponse parse q resp = LR q (JStr q) (JArr []) (JNum (6 # 10)) llm None)
  /\ ((parse resp = None \/ parse resp = Some JNull) ->
        parseLLMResponse parse q resp = text_fallback q resp).
Proof.
  assert (Hd : forall v d, truthy_json v = false -> or_default v d = d).
  { intros v d H. unfold or_default. destruct v; [rewrite H|]; reflexivity. }
  assert (Ht : forall v j d, v = Some j -> truthy_json (Some j) = true -> or_default v d = j).
  { intros v j d -> H. unfold or_default. rewrite H. reflexivity. }
  split; [|split].
  - intros v Hp Hn. cbv zeta. unfold parseLLMResponse. rewrite Hp.
    destruct v; try (exfalso; exact (Hn eq_refl));
      cbn [lr_method lr_originalQuery lr_enhancedQuery lr_suggestions lr_confidence
           lr_reasoning];
      (split; [reflexivity|]); (split; [reflexivity|]);
      (split; [apply Hd|]); (split; [apply Hd|]); (split; [apply Hd|]);
      (split; [intros j Hj; apply Ht; exact Hj|]);
      (split; [intros j Hj; apply Ht; exact Hj|]);
      (split; [intros j Hj; apply Ht; exact Hj|]); reflexivity.
  - intros v Hp Hv. unfold parseLLMResponse. rewrite Hp.
    destruct v; try contradiction; reflexivity.
  - intros [Hp | Hp]; unfold parseLLMResponse; rewrite Hp; reflexivity.
Qed.

Lemma parseLLMResponse_json_defaults_witness :
  let parse := fun _ : string =>
    Some (JObj [("enhancedQuery", JStr ""); ("confidence", JNum 0);
                ("alternatives", JArr [JStr "6203-2Z"])]) in
  lr_enhancedQuery (parseLLMResponse parse "6203" "{...}") = JStr "6203"
  /\ lr_confidence (parseLLMResponse parse "6203" "{...}") = JNum (6 # 10)
  /\ lr_method (parseLLMResponse parse "6203" "{...}") = llm
  /\ lr_suggestions (parseLLMResponse parse "6203" "{...}") = JArr [JStr "6203-2Z"].
Proof.
  intros parse.
  destruct (proj1 (parseLLMResponse_json_defaults parse "6203" "{...}") _ eq_refl
              ltac:(discriminate)) as (Hm & _ & He & _ & Hc & _ & Ha & _).
  split; [apply He; reflexivity | split; [apply Hc; vm_compute; reflexivity|]].
  split; [exact Hm|]. apply Ha; reflexivity.
Defined.

(** The plain-text fallback reports method "llm_fallback", no suggestions
    and confidence 0.6; its enhanced query is a trimmed string (trimming it
    again changes nothing): the first non-blank line mentioning "enhanced"
    or "search", or else the original query, with everything up to its
    first colon removed. *)
Theorem text_fallback_result q resp :
  let r := text_fallback q resp in
  lr_method r = llm_fallback /\ lr_suggestions r = JArr [] /\ lr_confidence r = JNum (6 # 10)
  /\ exists t, lr_enhancedQuery r = JStr t /\ trim t = t
     /\ ((forall line, In line (split_on nl resp) -> truthy (trim line) = true ->
            mentions line = false) ->
         t = trim (replace_label q)).
Proof.
  cbv zeta. unfold text_fallback. cbn [lr_method lr_suggestions lr_confidence lr_enhancedQuery].
  split; [reflexivity | split; [reflexivity | split; [reflexivity|]]].
  eexists. split; [reflexivity|]. split; [apply trim_idem|].
  intros H. rewrite find_none_all; [reflexivity|].
  intros x Hx. apply filter_In in Hx as [Hx Ht]. exact (H x Hx Ht).
Qed.

Lemma text_fallback_result_witness :
  lr_enhancedQuery (text_fallback "SKF: 6203" "I suggest a deep groove bearing") = JStr "6203".
Proof.
  destruct (text_fallback_result "SKF: 6203" "I suggest a deep groove bearing")
    as (_ & _ & _ & t & Ht & _ & Hq).
  rewrite Ht, Hq; [vm_compute; reflexivity|].
  intros line Hl _. vm_compute in Hl. destruct Hl as [<- | []]. vm_compute. reflexivity.
Defined.

End LLMResponse.
